(** * main_wpp: sending a message to a list of phone numbers through WhatsApp Web

    A shallow embedding of [main_wpp.py].  Pure helpers ([normalize_phone],
    the two loops of [load_numbers], [build_report], [format_duration]) are
    Rocq functions.  Everything that touches the browser, the clock, the file
    system or the log is written in a small state-and-exception monad over

    - an abstract outside world [W] with an oracle for every external call
      (each call may succeed or raise),
    - the trace of the external calls and log records made so far,
    - a store for the Python list objects that the code mutates in place. *)

From Stdlib Require Import String Ascii ZArith NArith QArith Qround List Lia DecimalString.
From stdpp Require Import base option list strings gmap.

Local Open Scope nat_scope.

#[local] Set Warnings "-clear-no-such-hyp".

(** ** Python strings

    A Python [str] is a sequence of Unicode characters.  The Rocq [string]
    that stands for it holds its UTF-8 encoding, byte by byte: a character is
    a leading byte with the continuation bytes that follow it.  The character
    classes are those of CPython 3.11 (Unicode 14.0). *)

Module Py.

(** A continuation byte of UTF-8: [10xxxxxx]. *)
Definition continuation (b : ascii) : bool :=
  let n := N_of_ascii b in (128 <=? n)%N && (n <? 192)%N.

Definition continues (c : string) : bool :=
  match c with
  | EmptyString => false
  | String b _ => continuation b
  end.

(** The characters of a text, in order, each as the string of its bytes:
    what iterating over a [str] yields. *)
Fixpoint chars (s : string) : list string :=
  match s with
  | EmptyString => []
  | String b r =>
      match chars r with
      | [] => [String b EmptyString]
      | c :: cs =>
          if continues c then String b c :: cs
          else String b EmptyString :: c :: cs
      end
  end.

(** [''.join(cs)]. *)
Definition text (cs : list string) : string :=
  fold_right String.append EmptyString cs.

(** The low six bits of a byte. *)
Definition six (b : ascii) : N := (N_of_ascii b mod 64)%N.

(** [ord(c)], the code point of a character, decoded from its one to four
    bytes; bytes that encode no character have none. *)
Definition ord (c : string) : option N :=
  match c with
  | String b EmptyString =>
      let n := N_of_ascii b in
      if (n <? 128)%N then Some n else None
  | String b (String b1 EmptyString) =>
      let n := N_of_ascii b in
      if (192 <=? n)%N && (n <? 224)%N && continuation b1
      then Some ((n - 192) * 64 + six b1)%N else None
  | String b (String b1 (String b2 EmptyString)) =>
      let n := N_of_ascii b in
      if (224 <=? n)%N && (n <? 240)%N && continuation b1 && continuation b2
      then Some (((n - 224) * 64 + six b1) * 64 + six b2)%N else None
  | String b (String b1 (String b2 (String b3 EmptyString))) =>
      let n := N_of_ascii b in
      if (240 <=? n)%N && (n <? 248)%N && continuation b1 && continuation b2
         && continuation b3
      then Some ((((n - 240) * 64 + six b1) * 64 + six b2) * 64 + six b3)%N else None
  | _ => None
  end.

(** A table of code points: runs given by their first code point and their
    length. *)
Definition in_table (table : list (N * N)) (cp : N) : bool :=
  existsb (fun '(first, count) => (first <=? cp)%N && (cp <? first + count)%N) table.

(** The characters for which [str.isspace] holds, and which [str.strip]
    removes: TAB to CR, FS to space, NEL, the no-break space, the Ogham space
    mark, the spaces U+2000 to U+200A, the line and paragraph separators, the
    narrow no-break space, the medium mathematical space and the ideographic
    space. *)
Definition whitespace : list (N * N) :=
  [(0x9, 5); (0x1C, 5); (0x85, 1); (0xA0, 1); (0x1680, 1); (0x2000, 11); (0x2028, 2);
   (0x202F, 1); (0x205F, 1); (0x3000, 1)]%N.

(** The characters for which [str.isdigit] holds: the decimal digits of every
    script, and the superscript, subscript, circled and other digits that are
    digits without being decimal. *)
Definition digits : list (N * N) :=
  [(0x30, 10); (0xB2, 2); (0xB9, 1); (0x660, 10); (0x6F0, 10); (0x7C0, 10); (0x966, 10);
   (0x9E6, 10); (0xA66, 10); (0xAE6, 10); (0xB66, 10); (0xBE6, 10); (0xC66, 10);
   (0xCE6, 10); (0xD66, 10); (0xDE6, 10); (0xE50, 10); (0xED0, 10); (0xF20, 10);
   (0x1040, 10); (0x1090, 10); (0x1369, 9); (0x17E0, 10); (0x1810, 10); (0x1946, 10);
   (0x19D0, 11); (0x1A80, 10); (0x1A90, 10); (0x1B50, 10); (0x1BB0, 10); (0x1C40, 10);
   (0x1C50, 10); (0x2070, 1); (0x2074, 6); (0x2080, 10); (0x2460, 9); (0x2474, 9);
   (0x2488, 9); (0x24EA, 1); (0x24F5, 9); (0x24FF, 1); (0x2776, 9); (0x2780, 9);
   (0x278A, 9); (0xA620, 10); (0xA8D0, 10); (0xA900, 10); (0xA9D0, 10); (0xA9F0, 10);
   (0xAA50, 10); (0xABF0, 10); (0xFF10, 10); (0x104A0, 10); (0x10A40, 4); (0x10D30, 10);
   (0x10E60, 9); (0x11052, 9); (0x11066, 10); (0x110F0, 10); (0x11136, 10); (0x111D0, 10);
   (0x112F0, 10); (0x11450, 10); (0x114D0, 10); (0x11650, 10); (0x116C0, 10);
   (0x11730, 10); (0x118E0, 10); (0x11950, 10); (0x11C50, 10); (0x11D50, 10);
   (0x11DA0, 10); (0x16A60, 10); (0x16AC0, 10); (0x16B50, 10); (0x1D7CE, 50);
   (0x1E140, 10); (0x1E2F0, 10); (0x1E950, 10); (0x1F100, 11); (0x1FBF0, 10)]%N.

(** [str.isdigit] and [str.isspace] on a string of one character. *)
Definition isdigit (c : string) : bool :=
  match ord c with
  | Some cp => in_table digits cp
  | None => false
  end.

Definition isspace (c : string) : bool :=
  match ord c with
  | Some cp => in_table whitespace cp
  | None => false
  end.

(** [str.lower] on the letters A to Z; every other character is left as it
    is.  The program lowers a text only to compare it with the word
    [telefones], and no character outside ASCII lowers to a letter of that
    word, so the comparison comes out as in Python. *)
Definition lower_char (c : ascii) : ascii :=
  let n := nat_of_ascii c in
  if (65 <=? n) && (n <=? 90) then ascii_of_nat (n + 32) else c.

Fixpoint lower (s : string) : string :=
  match s with
  | EmptyString => EmptyString
  | String c r => String (lower_char c) (lower r)
  end.

(** [''.join(filter(p, s))]. *)
Definition filter (p : string -> bool) (s : string) : string :=
  text (List.filter p (chars s)).

Fixpoint lstrip_chars (cs : list string) : list string :=
  match cs with
  | [] => []
  | c :: rest => if isspace c then lstrip_chars rest else cs
  end.

Fixpoint rstrip_chars (cs : list string) : list string :=
  match cs with
  | [] => []
  | c :: rest =>
      match rstrip_chars rest with
      | [] => if isspace c then [] else [c]
      | kept => c :: kept
      end
  end.

Definition lstrip (s : string) : string := text (lstrip_chars (chars s)).


(** [str.strip()] with no argument: whitespace goes from both ends. *)
Definition strip (s : string) : string :=
  text (rstrip_chars (lstrip_chars (chars s))).


(** Every byte of [s] satisfies [p]. *)
Fixpoint all_bytes (p : ascii -> bool) (s : string) : bool :=
  match s with
  | EmptyString => true
  | String b r => p b && all_bytes p r
  end.

(** The byte is one of the ASCII digits 0 to 9. *)
Definition decimal (b : ascii) : bool :=
  let n := nat_of_ascii b in (48 <=? n) && (n <=? 57).

(** [str(n)] for an [int]. *)
Definition str_of_Z (z : Z) : string := NilZero.string_of_int (Z.to_int z).
Definition str_of_nat (n : nat) : string := str_of_Z (Z.of_nat n).

(** Truth value of a string: [not s] holds of the empty string only. *)
Definition truthy (s : string) : bool :=
  match s with EmptyString => false | _ => true end.

End Py.

(** ** The number source *)

(** The value of a spreadsheet cell as openpyxl hands it over.  [VOther]
    stands for a float, a bool or a date and carries the text [str()] gives. *)
Inductive cell_value :=
| VNone
| VStr (s : string)
| VInt (z : Z)
| VOther (text : string).

Definition str_of_value (v : cell_value) : string :=
  match v with
  | VNone => "None"
  | VStr s => s
  | VInt z => Py.str_of_Z z
  | VOther text => text
  end.

Definition normalize_phone (value : cell_value) : option string :=
  match value with
  | VNone => None
  | _ =>
      let digits := Py.filter Py.isdigit (str_of_value value) in
      if Py.truthy digits then Some digits else None
  end.

(** [isinstance(cell.value, str) and cell.value.strip().lower() == "telefones"] *)
Definition is_header (value : cell_value) : bool :=
  match value with
  | VStr s => bool_decide (Py.lower (Py.strip s) = "telefones")
  | _ => false
  end.

(** [limit and len(numbers) >= limit]: [None] and [0] are falsy. *)
Definition limit_reached (limit : option Z) (numbers : list string) : bool :=
  match limit with
  | None => false
  | Some l => negb (l =? 0)%Z && (Z.of_nat (length numbers) >=? l)%Z
  end.

(** The first loop of [load_numbers], over the cells of the column, with the
    list [numbers] built so far. *)
Fixpoint read_column (limit : option Z) (cells : list cell_value)
    (numbers : list string) : list string :=
  match cells with
  | [] => numbers
  | value :: rest =>
      if is_header value then read_column limit rest numbers
      else match normalize_phone value with
           | None => read_column limit rest numbers
           | Some digits =>
               let numbers := numbers ++ [digits] in
               if limit_reached limit numbers then numbers
               else read_column limit rest numbers
           end
  end.

(** The second loop: [seen] is the set, [ordered_unique] the list. *)
Fixpoint unique_loop (numbers : list string) (seen : gset string)
    (ordered_unique : list string) : list string :=
  match numbers with
  | [] => ordered_unique
  | number :: rest =>
      if decide (number ∉ seen)
      then unique_loop rest ({[number]} ∪ seen) (ordered_unique ++ [number])
      else unique_loop rest seen ordered_unique
  end.

(** The two loops of [load_numbers], on the cells of the column. *)
Definition load_numbers_from (cells : list cell_value) (limit : option Z)
    : list string :=
  unique_loop (read_column limit cells []) ∅ [].

(** ** The outside world

    Exceptions are the subclasses of [Exception] that the selenium, openpyxl,
    file and time calls raise; [except Exception] catches every one of them.
    [KeyboardInterrupt] and [SystemExit], which it lets through, arrive
    asynchronously and are outside the model. *)
Record exn := Exn { exn_class : string; exn_text : string }.

Inductive result (A : Type) :=
| Ret (a : A)
| Raise (e : exn).
Arguments Ret {A} a.
Arguments Raise {A} e.

#[global] Instance result_ret : MRet result := fun A a => Ret a.

#[global] Instance result_bind : MBind result := fun A B k r =>
  match r with
  | Ret a => k a
  | Raise e => Raise e
  end.

(** A Python [float]: a rational for a finite value (every finite float is
    one; the rounding of float arithmetic is left out), an infinity or NaN. *)
Inductive pyfloat :=
| Finite (q : Q)
| Infinity (negative : bool)
| NaN.

Bind Scope Q_scope with pyfloat.
Coercion Finite : Q >-> pyfloat.

(** CPython keeps a duration as a signed 64-bit count of nanoseconds,
    [_PyTime_t]; a timeout is rounded away from zero. *)
Definition PyTime_MIN : Z := -9223372036854775808.
Definition PyTime_MAX : Z := 9223372036854775807.

Definition nanoseconds (seconds : Q) : Z :=
  if Qle_bool 0 seconds then Qceiling (seconds * 1000000000)
  else Qfloor (seconds * 1000000000).

(** What [time.sleep(seconds)] makes of its argument: NaN is refused, then a
    duration that does not fit [_PyTime_t] (an infinity among them), then a
    negative one; otherwise the program sleeps for that long. *)
Definition sleep_result (seconds : pyfloat) : result Q :=
  match seconds with
  | NaN => Raise (Exn "ValueError" "Invalid value NaN (not a number)")
  | Infinity _ =>
      Raise (Exn "OverflowError" "timestamp too large to convert to C _PyTime_t")
  | Finite q =>
      let ns := nanoseconds q in
      if (ns <? PyTime_MIN)%Z || (PyTime_MAX <? ns)%Z
      then Raise (Exn "OverflowError" "timestamp too large to convert to C _PyTime_t")
      else if (ns <? 0)%Z
      then Raise (Exn "ValueError" "sleep length must be non-negative")
      else Ret q
  end.

(** The condition a [WebDriverWait.until] waits for. *)
Inductive condition :=
| title_contains (marker : string)
| presence_of_element_located (xpath : string).

(** Log levels of the [logging] module. *)
Inductive level := DEBUG | INFO | WARNING | ERROR.

(** The calls that leave the program. *)
Inductive call :=
| ReadText (path : string)
| LoadWorkbook (path : string)
| GetSheet (sheet_name : string)
| GetColumn (column : string)
| WorkbookClose
| Chrome (arguments : list string)
| MaximizeWindow
| Get (url : string)
| Until (timeout : Z) (c : condition)
| SendKeys (text : string)
| SwitchToAlert
| AlertAccept
| BrowserQuit
| Print (text : string).

(** What a call hands back when it does not raise. *)
Definition answer (c : call) : Type :=
  match c with
  | ReadText _ => string
  | GetColumn _ => list cell_value
  | _ => unit
  end.

(** One entry of the trace: an external call with the exception it raised, if
    any; a reading of the clock; a completed [time.sleep]; the configuration of
    the [logging] module; a call of [logging.debug/info/warning/error] with its
    format string and arguments (the record is written or not according to the
    configured level, which the trace does not decide). *)
Inductive event :=
| Called (c : call) (raised : option exn)
| Clock (now : Q)
| Slept (seconds : Q)
| Configured (lvl : level)
| Logged (lvl : level) (format : string) (args : list string).

(** The store of the list objects the program mutates: a location is the index
    of the list in the store. *)
Definition loc := nat.

Section World.

Context {W : Type}.

(** The oracle answers every call in the current world: the answer or an
    exception, and the world after it.  The clock never raises. *)
Variable oracle : forall c : call, W -> result (answer c) * W.
Variable clock : W -> Q * W.

Record state := State {
  world : W;
  trace : list event;
  store : list (list string)
}.

(** A computation runs from a state to a result and a state. *)
Definition M (A : Type) : Type := state -> result A * state.

#[global] Instance M_ret : MRet M := fun A a s => (Ret a, s).

#[global] Instance M_bind : MBind M := fun A B k m s =>
  match m s with
  | (Ret a, s') => k a s'
  | (Raise e, s') => (Raise e, s')
  end.

Definition raise {A} (e : exn) : M A := fun s => (Raise e, s).

Definition record (ev : event) : M unit := fun s =>
  (Ret tt, State (world s) (trace s ++ [ev]) (store s)).

Definition raised {A} (r : result A) : option exn :=
  match r with Ret _ => None | Raise e => Some e end.

(** An external call: the oracle answers, the trace keeps the call. *)
Definition external (c : call) : M (answer c) := fun s =>
  let '(r, w) := oracle c (world s) in
  (r, State w (trace s ++ [Called c (raised r)]) (store s)).

(** [time.time()]. *)
Definition time_time : M Q := fun s =>
  let '(now, w) := clock (world s) in
  (Ret now, State w (trace s ++ [Clock now]) (store s)).

(** [try: body / except Exception as exc: handler(exc)]. *)
Definition try_except {A} (body : M A) (handler : exn -> M A) : M A := fun s =>
  match body s with
  | (Ret a, s') => (Ret a, s')
  | (Raise exc, s') => handler exc s'
  end.

(** [try: body / finally: final].  The final block runs on both exits of the
    body; an exception of the final block replaces the outcome of the body. *)
Definition try_finally {A} (body : M A) (final : M unit) : M A := fun s =>
  let '(r, s') := body s in
  match final s' with
  | (Ret _, s'') => (r, s'')
  | (Raise e, s'') => (Raise e, s'')
  end.

(** [for x in xs: body(x)]. *)
Fixpoint for_each {A} (xs : list A) (body : A -> M unit) : M unit :=
  match xs with
  | [] => mret tt
  | x :: rest => body x ;; for_each rest body
  end.

(** [logging.<lvl>(format, *args)]. *)
Definition logging (lvl : level) (format : string) (args : list string) : M unit :=
  record (Logged lvl format args).

(** [time.sleep(seconds)]. *)
Definition sleep (seconds : pyfloat) : M unit :=
  match sleep_result seconds with
  | Ret q => record (Slept q)
  | Raise e => raise e
  end.

(** [xs = []]: a new list object. *)
Definition new_list : M loc := fun s =>
  (Ret (length (store s)), State (world s) (trace s) (store s ++ [[]])).

(** [xs.append(x)] on the list object at [l]. *)
Definition append (l : loc) (x : string) : M unit := fun s =>
  (Ret tt, State (world s) (trace s) (alter (fun xs => xs ++ [x]) l (store s))).

(** The current content of the list object at [l]. *)
Definition content (σ : list (list string)) (l : loc) : list string :=
  default [] (σ !! l).

(** ** The program *)

Definition nl : string := String (ascii_of_nat 10) EmptyString.

Definition DEFAULT_MESSAGE : string :=
  "Olá, boa noite! Tudo bem?" +:+ nl +:+
  "Me chamo Karina e falo do Recrutamento e Seleção do Grupo Segurpro." +:+ nl +:+
  "Estamos com oportunidades para atuar como Vigilante Intermitente em uma " +:+
  "operação especial de grande porte em São Paulo nos dias 12, 13 e 14/09." +:+ nl +:+
  "Você possui interesse?" +:+ nl +:+
  "Se tiver disponibilidade imediata e reciclagem em dia, pedimos que compareça " +:+
  "com seus documentos em:" +:+ nl +:+
  "RUA DOS ITALIANOS, 988 - BOM RETIRO" +:+ nl +:+
  "Amanhã (11/09) ÀS 8H." +:+ nl +:+
  "Contamos com sua presença!" +:+ nl.

(** [RunStats]: the two fields hold list objects of the store. *)
Record RunStats := {
  successful_numbers : loc;
  failed_numbers : loc
}.

(** The property [RunStats.total], read in the store [σ]. *)
Definition total (σ : list (list string)) (stats : RunStats) : nat :=
  length (content σ (successful_numbers stats))
  + length (content σ (failed_numbers stats)).

(** The command line after argparse has split it into options and converted
    their values: one [arg] per option given, in the order given. *)
Inductive arg :=
| opt_workbook (v : string)
| opt_sheet (v : string)
| opt_column (v : string)
| opt_limit (v : Z)
| opt_message_file (v : string)
| opt_delay (v : pyfloat)
| opt_report_number (v : string)
| opt_user_data_dir (v : string)
| opt_headless
| opt_max_wait (v : Z)
| opt_log_level (v : level).

Record Namespace := {
  workbook : string;
  sheet : string;
  column : string;
  limit : option Z;
  message_file : option string;
  delay : pyfloat;
  report_numbers : list string;
  user_data_dir : option string;
  headless : bool;
  max_wait : Z;
  log_level : level
}.

(** The [default=] of every option. *)
Definition defaults : Namespace := {|
  workbook := "Pasta3.xlsx";
  sheet := "Planilha78";
  column := "A";
  limit := None;
  message_file := None;
  delay := 5;
  report_numbers := ["11969257920"; "11953075442"];
  user_data_dir := None;
  headless := false;
  max_wait := 60;
  log_level := INFO
|}.

(** The action of one option on the namespace: [store] replaces the value,
    [store_true] sets it, and [append] (for [--report-number]) adds the value
    to a copy of the list the namespace holds, which starts as the default. *)
Definition apply_arg (ns : Namespace) (a : arg) : Namespace :=
  let 'Build_Namespace wb sh col lim mf d rn udd hl mw ll := ns in
  match a with
  | opt_workbook v => Build_Namespace v sh col lim mf d rn udd hl mw ll
  | opt_sheet v => Build_Namespace wb v col lim mf d rn udd hl mw ll
  | opt_column v => Build_Namespace wb sh v lim mf d rn udd hl mw ll
  | opt_limit v => Build_Namespace wb sh col (Some v) mf d rn udd hl mw ll
  | opt_message_file v => Build_Namespace wb sh col lim (Some v) d rn udd hl mw ll
  | opt_delay v => Build_Namespace wb sh col lim mf v rn udd hl mw ll
  | opt_report_number v => Build_Namespace wb sh col lim mf d (rn ++ [v]) udd hl mw ll
  | opt_user_data_dir v => Build_Namespace wb sh col lim mf d rn (Some v) hl mw ll
  | opt_headless => Build_Namespace wb sh col lim mf d rn udd true mw ll
  | opt_max_wait v => Build_Namespace wb sh col lim mf d rn udd hl v ll
  | opt_log_level v => Build_Namespace wb sh col lim mf d rn udd hl mw v
  end.

Definition parse_args (argv : list arg) : Namespace :=
  fold_left apply_arg argv defaults.

Definition configure_logging (lvl : level) : M unit :=
  record (Configured lvl).

Definition load_numbers (workbook_path sheet_name column : string)
    (limit : option Z) : M (list string) :=
  external (LoadWorkbook workbook_path);;
  external (GetSheet sheet_name);;
  cells ← external (GetColumn column);
  let numbers := read_column limit cells [] in
  external WorkbookClose;;
  mret (unique_loop numbers ∅ []).

(** The browser handle and the [WebDriverWait] built on it. *)
Record browser := { chrome_arguments : list string }.
Record waiter := { timeout : Z }.

Definition build_browser (max_wait : Z) (user_data_dir : option string)
    (headless : bool) : M (browser * waiter) :=
  let options :=
    match user_data_dir with
    | Some dir => ["--user-data-dir=" +:+ dir]
    | None => []
    end ++
    (if headless then ["--headless=new"; "--window-size=1920,1080"] else []) in
  external (Chrome options);;
  external MaximizeWindow;;
  mret ({| chrome_arguments := options |}, {| timeout := max_wait |}).

Definition message_box_xpath : string :=
  "/html/body/div[1]/div/div[1]/div[3]/div/div[4]/div/footer/div[1]/div/" +:+
  "span/div/div[2]/div/div[3]/div[1]/p".

Definition wait_for_message_box (wait : waiter) : M unit :=
  external (Until (timeout wait) (presence_of_element_located message_box_xpath)).

Definition send_url (number : string) : string :=
  "https://web.whatsapp.com/send/?phone=55" +:+ number +:+
  "&text&type=phone_number&app_absent=0".

Definition dismiss_alert (b : browser) : M unit :=
  try_except
    (external SwitchToAlert;;
     external AlertAccept;;
     logging DEBUG "Alert aceito" [])
    (fun _ => mret tt).

Definition send_message (b : browser) (wait : waiter) (number message : string)
    (delay : pyfloat) : M bool :=
  try_finally
    (try_except
       (external (Get (send_url number));;
        external (Until (timeout wait) (title_contains "WhatsApp"));;
        wait_for_message_box wait;;
        external (SendKeys message);;
        logging INFO "Mensagem enviada para %s" [number];;
        mret true)
       (fun exc =>
          logging ERROR "Erro com %s: %s" [number; exn_text exc];;
          mret false))
    (sleep delay;;
     dismiss_alert b).

Definition process_numbers (b : browser) (wait : waiter) (numbers : list string)
    (message : string) (delay : pyfloat) : M RunStats :=
  successful ← new_list;
  failed ← new_list;
  for_each numbers (fun number =>
    ok ← send_message b wait number message delay;
    if ok : bool then append successful number else append failed number);;
  mret {| successful_numbers := successful; failed_numbers := failed |}.

Definition send_report (b : browser) (wait : waiter) (numbers : list string)
    (message : string) (delay : pyfloat) : M unit :=
  for_each numbers (fun number =>
    match normalize_phone (VStr number) with
    | None => logging WARNING "Número de relatório inválido: %s" [number]
    | Some normalized =>
        send_message b wait normalized message delay;; mret tt
    end).

(** [time.gmtime(seconds)] rounds the seconds down to a [time_t], which must
    hold them, and breaks them into a date, whose year must fit a C [int]:
    on a platform with a 64-bit [time_t] (Linux, glibc) the seconds from
    [gmtime_MIN] to [gmtime_MAX].  Of the date only the seconds are kept
    here. *)
Definition time_t_MIN : Z := -9223372036854775808.
Definition time_t_MAX : Z := 9223372036854775807.
Definition gmtime_MIN : Z := -67768040609740800.
Definition gmtime_MAX : Z := 67768036191676799.

Definition gmtime (seconds : Q) : result Z :=
  let t := Qfloor seconds in
  if (t <? time_t_MIN)%Z || (time_t_MAX <? t)%Z
  then Raise (Exn "OverflowError" "timestamp out of range for platform time_t")
  else if (t <? gmtime_MIN)%Z || (gmtime_MAX <? t)%Z
  then Raise (Exn "OSError" "[Errno 75] Value too large for defined data type")
  else Ret t.

Definition two_digits (n : Z) : string :=
  if (n <? 10)%Z then "0" +:+ Py.str_of_Z n else Py.str_of_Z n.

(** The time of day [t] seconds after a midnight, as [%H:%M:%S] prints it. *)
Definition hms (t : Z) : string :=
  let d := (t mod 86400)%Z in
  two_digits (d / 3600) +:+ ":" +:+ two_digits (d mod 3600 / 60) +:+ ":" +:+
  two_digits (d mod 60).

(** [time.strftime("%H:%M:%S", date)] for the date [t] seconds after the
    epoch: the year of the date must fit a C [int], which it does up to the
    end of the year 2147483647. *)
Definition strftime_MAX : Z := 67767976233532799.

Definition strftime_HMS (t : Z) : result string :=
  if (strftime_MAX <? t)%Z
  then Raise (Exn "OverflowError" "signed integer is greater than maximum")
  else Ret (hms t).

Definition format_duration (seconds : Q) : result string :=
  t ← gmtime seconds; strftime_HMS t.

(** [repr] of a [str], as an f-string prints the elements of a list: quoted
    with ['], or with the double quote when the text holds a ['] and no double
    quote; the quote, the backslash and control characters are escaped. *)
Definition single_quote : ascii := ascii_of_nat 39.
Definition double_quote : ascii := ascii_of_nat 34.
Definition backslash : ascii := ascii_of_nat 92.

Fixpoint contains (c : ascii) (s : string) : bool :=
  match s with
  | EmptyString => false
  | String c' r => bool_decide (c = c') || contains c r
  end.

Definition hex_digit (n : nat) : ascii :=
  if n <? 10 then ascii_of_nat (48 + n) else ascii_of_nat (87 + n).

Definition repr_char (quote c : ascii) : string :=
  let n := nat_of_ascii c in
  if bool_decide (c = quote) || bool_decide (c = backslash)
  then String backslash (String c EmptyString)
  else if n =? 9 then "\t"
  else if n =? 10 then "\n"
  else if n =? 13 then "\r"
  else if (n <? 32) || (n =? 127)
  then "\x" +:+ String (hex_digit (n / 16)) (String (hex_digit (n mod 16)) EmptyString)
  else String c EmptyString.

Fixpoint repr_chars (quote : ascii) (s : string) : string :=
  match s with
  | EmptyString => EmptyString
  | String c r => repr_char quote c +:+ repr_chars quote r
  end.

Definition repr_str (s : string) : string :=
  let quote :=
    if contains single_quote s && negb (contains double_quote s)
    then double_quote else single_quote in
  String quote (repr_chars quote s +:+ String quote EmptyString).

Fixpoint join (sep : string) (xs : list string) : string :=
  match xs with
  | [] => EmptyString
  | [x] => x
  | x :: rest => x +:+ sep +:+ join sep rest
  end.

Definition repr_list (xs : list string) : string :=
  "[" +:+ join ", " (map repr_str xs) +:+ "]".

(** [x / n] for a float [x] and an int [n]: dividing by zero raises. *)
Definition truediv (x : Q) (n : nat) : result Q :=
  if n =? 0 then Raise (Exn "ZeroDivisionError" "float division by zero")
  else Ret (x / inject_Z (Z.of_nat n))%Q.

(** [elapsed / stats.total if stats.total else 0] *)
Definition tempo_medio (σ : list (list string)) (stats : RunStats) (elapsed : Q)
    : result Q :=
  if negb (total σ stats =? 0) then truediv elapsed (total σ stats) else Ret 0%Q.

(** [build_report], reading the lists of [stats] in the store [σ]. *)
Definition build_report (σ : list (list string)) (stats : RunStats) (elapsed : Q)
    : result string :=
  tempo_medio ← tempo_medio σ stats elapsed;
  execucao ← format_duration elapsed;
  medio ← format_duration tempo_medio;
  mret ("Total de números: " +:+ Py.str_of_nat (total σ stats) +:+ nl +:+
        "Números enviados com sucesso: " +:+
          Py.str_of_nat (length (content σ (successful_numbers stats))) +:+ nl +:+
        "Números enviados com erro: " +:+
          Py.str_of_nat (length (content σ (failed_numbers stats))) +:+ nl +:+
        "Números com erro: " +:+
          repr_list (content σ (failed_numbers stats)) +:+ nl +:+
        "Tempo de execução: " +:+ execucao +:+ nl +:+
        "Tempo médio por número: " +:+ medio +:+ nl).

(** A computation without effects that reads the current store. *)
Definition reading {A} (f : list (list string) -> result A) : M A := fun s =>
  (f (store s), s).

Definition load_message (message_file : option string) : M string :=
  match message_file with
  | None => mret DEFAULT_MESSAGE
  | Some path => text ← external (ReadText path); mret (Py.strip text)
  end.

Definition main (argv : list arg) : M Z :=
  let args := parse_args argv in
  configure_logging (log_level args);;
  message ← load_message (message_file args);
  numbers ← load_numbers (workbook args) (sheet args) (column args) (limit args);
  match numbers with
  | [] =>
      logging WARNING "Nenhum número válido encontrado na planilha." [];;
      mret 1%Z
  | _ =>
      logging INFO "Total de números únicos a enviar: %s"
        [Py.str_of_nat (length numbers)];;
      '(b, wait) ← build_browser (max_wait args) (user_data_dir args) (headless args);
      start ← time_time;
      try_finally
        (stats ← process_numbers b wait numbers message (delay args);
         now ← time_time;
         let elapsed := (now - start)%Q in
         report_message ← reading (fun σ => build_report σ stats elapsed);
         logging INFO ("Resumo:" +:+ nl +:+ "%s") [report_message];;
         send_report b wait (report_numbers args) report_message (delay args);;
         external (Print report_message))
        (external BrowserQuit);;
      mret 0%Z
  end.

End World.

Arguments state W : clear implicits.
Arguments M W A : clear implicits.

(** ** A scripted world, for running the program on concrete inputs

    The world is the number of external calls answered so far.  The call
    number [k] raises when [fails k] holds; otherwise a file reads as [text],
    the column holds [cells]; the clock shows [k] seconds and counts as a
    call. *)
Definition scripted (text : string) (cells : list cell_value) (fails : nat -> bool)
    (c : call) (k : nat) : result (answer c) * nat :=
  if fails k then (Raise (Exn "WebDriverException" "scripted failure"), S k)
  else (Ret (match c return answer c with
             | ReadText _ => text
             | GetColumn _ => cells
             | _ => tt
             end), S k).

Definition ticking (k : nat) : Q * nat := (inject_Z (Z.of_nat k), S k).

Definition never : nat -> bool := fun _ => false.

Definition initial : state nat := State 0 [] [].

(** ** What the properties speak of *)

(** The events since the state [s], in a later state [s']. *)
Definition since {W} (s s' : state W) : list event :=
  drop (length (trace s)) (trace s').

Definition is_quit (ev : event) : bool :=
  match ev with Called BrowserQuit _ => true | _ => false end.

(** How many times [browser.quit()] was called. *)
Definition quits (tr : list event) : nat := length (List.filter is_quit tr).

(** The URLs handed to [browser.get], in order. *)
Definition gets (tr : list event) : list string :=
  omap (fun ev => match ev with Called (Get url) _ => Some url | _ => None end) tr.

(** The calls that need the browser session. *)
Definition browser_call (c : call) : bool :=
  match c with
  | Chrome _ | MaximizeWindow | Get _ | Until _ _ | SendKeys _
  | SwitchToAlert | AlertAccept | BrowserQuit => true
  | _ => false
  end.

(** Events of the run proper: a call on the browser, a look at the clock, a
    sleep or the printing of the report. *)
Definition runs (ev : event) : bool :=
  match ev with
  | Called (Print _) _ | Clock _ | Slept _ => true
  | Called c _ => browser_call c
  | Configured _ | Logged _ _ _ => false
  end.

(** The events one [send_message] can leave. *)
Definition sending (ev : event) : bool :=
  match ev with
  | Called (Get _) _ | Called (Until _ _) _ | Called (SendKeys _) _
  | Called SwitchToAlert _ | Called AlertAccept _ | Slept _ | Logged _ _ _ => true
  | _ => false
  end.

(** The valid entries of a column: what the first loop of [load_numbers]
    appends when nothing stops it. *)
Definition entries (cells : list cell_value) : list string :=
  omap (fun value => if is_header value then None else normalize_phone value) cells.

(** The options [--report-number] of a command line, in order. *)
Definition supplied (argv : list arg) : list string :=
  omap (fun a => match a with opt_report_number v => Some v | _ => None end) argv.

(** The numbers of [numbers] whose send had the outcome [b], given the
    outcomes [oks] of the sends in order. *)
Fixpoint picked (b : bool) (numbers : list string) (oks : list bool) : list string :=
  match numbers, oks with
  | number :: numbers, ok :: oks =>
      if Bool.eqb ok b then number :: picked b numbers oks else picked b numbers oks
  | _, _ => []
  end.



(** The calls of one attempt, in order. *)
Definition protocol (wait : waiter) (number message : string) : list call :=
  [Get (send_url number);
   Until (timeout wait) (title_contains "WhatsApp");
   Until (timeout wait) (presence_of_element_located message_box_xpath);
   SendKeys message].

Definition succeeded (cs : list call) : list event :=
  map (fun c => Called c None) cs.

(** The events of the [try] block of [send_message] with its outcome: every
    call succeeds and the send is logged, or the first call that raises ends
    the attempt and the exception is logged as an error. *)
Inductive attempt (wait : waiter) (number message : string) : bool -> list event -> Prop :=
| attempt_sent :
    attempt wait number message true
      (succeeded (protocol wait number message)
       ++ [Logged INFO "Mensagem enviada para %s" [number]])
| attempt_failed passed c rest exc :
    protocol wait number message = passed ++ c :: rest ->
    attempt wait number message false
      (succeeded passed
       ++ [Called c (Some exc);
           Logged ERROR "Erro com %s: %s" [number; exn_text exc]]).

(** The events of [dismiss_alert]: no alert, an alert that cannot be accepted,
    or an alert accepted. *)
Inductive dismissal : list event -> Prop :=
| dismissal_no_alert exc : dismissal [Called SwitchToAlert (Some exc)]
| dismissal_not_accepted exc :
    dismissal [Called SwitchToAlert None; Called AlertAccept (Some exc)]
| dismissal_accepted :
    dismissal [Called SwitchToAlert None; Called AlertAccept None;
               Logged DEBUG "Alert aceito" []].

(** [m] takes every state to a state related to it by [R], whatever its
    result. *)
Definition preserves {W A} (R : relation (state W)) (m : M W A) : Prop :=
  forall s, R s (m s).2.

(** The trace grows by events that satisfy [P]. *)
Definition trace_by {W} (P : event -> bool) (s s' : state W) : Prop :=
  exists δ, trace s' = trace s ++ δ /\ forallb P δ = true.

(** The store is the same. *)
Definition same_store {W} (s s' : state W) : Prop := store s' = store s.

(** The recipients that normalize to a number, normalized, in order. *)
Definition valid_recipients (numbers : list string) : list string :=
  omap (fun number => normalize_phone (VStr number)) numbers.

Definition no_quit (ev : event) : bool := negb (is_quit ev).

(** [build_browser] has returned: [maximize_window], its last call, succeeded. *)
Definition is_ready (ev : event) : bool :=
  match ev with Called MaximizeWindow None => true | _ => false end.

Definition session_created (tr : list event) : bool := existsb is_ready tr.

(** Events before the browser session exists. *)
Definition unready (ev : event) : bool := no_quit ev && negb (is_ready ev).

(** Events that belong neither to the browser nor to the run proper. *)
Definition quiet (ev : event) : bool := negb (runs ev).

(** Events of the [try] block of [main]. *)
Definition working (ev : event) : bool :=
  sending ev ||
  match ev with Clock _ | Called (Print _) _ => true | _ => false end.

(** The [try] block of [main]. *)
Definition session {W} (oracle : forall c : call, W -> result (answer c) * W)
    (clock : W -> Q * W) (args : Namespace) (b : browser) (wait : waiter)
    (numbers : list string) (message : string) (start : Q) : M W unit :=
  stats ← process_numbers oracle b wait numbers message (delay args);
  now ← time_time clock;
  let elapsed := (now - start)%Q in
  report_message ← reading (fun σ => build_report σ stats elapsed);
  logging INFO ("Resumo:" +:+ nl +:+ "%s") [report_message];;
  send_report oracle b wait (report_numbers args) report_message (delay args);;
  external oracle (Print report_message).

(** Every character of [s] is one of the ASCII digits 0 to 9. *)
Definition all_digits (s : string) : bool := Py.all_bytes Py.decimal s.

(** Every character of [s] is a digit of some script. *)
Definition only_digits (s : string) : bool := forallb Py.isdigit (Py.chars s).

(** Some character of [s] is a digit. *)
Definition has_digit (s : string) : bool := existsb Py.isdigit (Py.chars s).

(** The calls [load_numbers] makes on the workbook, in order. *)
Definition workbook_calls (workbook_path sheet_name column : string) : list call :=
  [LoadWorkbook workbook_path; GetSheet sheet_name; GetColumn column; WorkbookClose].

(** The texts handed to [send_keys], in order. *)
Definition typed (tr : list event) : list string :=
  omap (fun ev => match ev with Called (SendKeys text) _ => Some text | _ => None end) tr.

(** An event of a [send_message] that types nothing but [text]. *)
Definition typing (text : string) (ev : event) : bool :=
  match ev with
  | Called (SendKeys t) _ => bool_decide (t = text)
  | _ => sending ev
  end.

(** The recipients [send_report] warns about, in order. *)
Definition invalid_recipients (numbers : list string) : list string :=
  List.filter (fun number => negb (bool_decide (is_Some (normalize_phone (VStr number)))))
    numbers.

(** The arguments of the [logging.warning] calls, in order. *)
Definition warnings (tr : list event) : list (list string) :=
  omap (fun ev => match ev with Logged WARNING _ args => Some args | _ => None end) tr.

(** The longest sleep [time.sleep] accepts: [PyTime_MAX] nanoseconds, a little
    over 292 years. *)
Definition longest_sleep : Q := 9223372036854775807 # 1000000000.

(** The workbook opens, has the sheet and the column, which holds [cells], and
    closes: the four calls of [load_numbers] succeed from the world [w] and
    leave the world [w']. *)
Definition workbook_read {W} (oracle : forall c : call, W -> result (answer c) * W)
    (workbook_path sheet_name column : string) (w : W) (cells : list cell_value)
    (w' : W) : Prop :=
  exists w1 w2 w3,
    oracle (LoadWorkbook workbook_path) w = (Ret tt, w1)
    /\ oracle (GetSheet sheet_name) w1 = (Ret tt, w2)
    /\ oracle (GetColumn column) w2 = (Ret cells, w3)
    /\ oracle WorkbookClose w3 = (Ret tt, w').

(** The durations [format_duration] can print. *)
Definition printable (seconds : Q) : Prop :=
  (gmtime_MIN <= Qfloor seconds <= strftime_MAX)%Z.

(** The bytes of one character, as [Py.chars] cuts them: a byte and the
    continuation bytes after it.  The first byte of a character proper is not
    a continuation byte. *)
Definition is_chunk (c : string) : bool :=
  match c with
  | EmptyString => false
  | String _ t => Py.all_bytes Py.continuation t
  end.

Definition is_char (c : string) : bool := is_chunk c && negb (Py.continues c).

(** Every byte is an ASCII character other than a digit. *)
Definition plain (b : ascii) : bool :=
  (N_of_ascii b <? 128)%N && negb (Py.decimal b).

(** ** Properties of Python strings *)

Lemma append_cons b (a c : string) : String b a +:+ c = String b (a +:+ c).
Proof. reflexivity. Qed.

Lemma append_empty_r (a : string) : a +:+ EmptyString = a.
Proof.
  induction a as [|c a IH]; [done|]. rewrite append_cons. by rewrite IH.
Qed.


Lemma text_cons c cs : Py.text (c :: cs) = c +:+ Py.text cs.
Proof. reflexivity. Qed.


Lemma chars_cons b r :
  Py.chars (String b r)
  = match Py.chars r with
    | [] => [String b EmptyString]
    | c :: cs =>
        if Py.continues c then String b c :: cs
        else String b EmptyString :: c :: cs
    end.
Proof. reflexivity. Qed.

(** A text is the concatenation of its characters. *)
Lemma text_chars s : Py.text (Py.chars s) = s.
Proof.
  induction s as [|b r IH]; [done|]. rewrite chars_cons.
  destruct (Py.chars r) as [|c cs].
  - by rewrite <- IH.
  - rewrite text_cons in IH. destruct (Py.continues c).
    + by rewrite text_cons, append_cons, IH.
    + by rewrite !text_cons, append_cons, IH.
Qed.

(** What [Py.chars] cuts: chunks, of which all but the first start with a
    leading byte. *)
Lemma chars_shape s :
  match Py.chars s with
  | [] => True
  | c :: cs => is_chunk c = true /\ Forall (fun c => is_char c = true) cs
  end.
Proof.
  induction s as [|b r IH]; [done|]. rewrite chars_cons.
  destruct (Py.chars r) as [|c cs]; [done|]. destruct IH as [Hc Hcs].
  destruct (Py.continues c) eqn:E.
  - split; [|done]. destruct c as [|k t]; [done|]. simpl in *. by rewrite E, Hc.
  - split; [done|]. constructor; [|done]. unfold is_char. by rewrite Hc, E.
Qed.

Lemma is_char_chunk c : is_char c = true -> is_chunk c = true.
Proof. unfold is_char. by intros [? _]%andb_true_iff. Qed.

Lemma chars_chunks s : Forall (fun c => is_chunk c = true) (Py.chars s).
Proof.
  pose proof (chars_shape s) as H. destruct (Py.chars s) as [|c cs]; [done|].
  destruct H as [Hc Hcs]. constructor; [done|].
  eapply Forall_impl; [exact Hcs|]. apply is_char_chunk.
Qed.

(** A byte followed by continuation bytes comes out as one character. *)
Lemma chars_run t : forall b rest,
  Py.all_bytes Py.continuation t = true ->
  match Py.chars rest with
  | [] => True
  | c :: _ => Py.continues c = false
  end ->
  Py.chars (String b (t +:+ rest)) = String b t :: Py.chars rest.
Proof.
  induction t as [|k t IH]; intros b rest Ht Hrest.
  - change (EmptyString +:+ rest) with rest. rewrite chars_cons.
    destruct (Py.chars rest) as [|c cs]; [done|]. by rewrite Hrest.
  - simpl in Ht. apply andb_true_iff in Ht as [Hk Ht].
    rewrite append_cons, chars_cons, (IH k rest Ht Hrest). simpl. by rewrite Hk.
Qed.

(** Cutting the concatenation of characters gives them back. *)
Lemma chars_text cs :
  Forall (fun c => is_char c = true) cs -> Py.chars (Py.text cs) = cs.
Proof.
  induction 1 as [|c cs Hc Hcs IH]; [done|].
  destruct c as [|b t]; [done|].
  unfold is_char in Hc. apply andb_true_iff in Hc as [Hchunk _].
  rewrite text_cons, append_cons, chars_run, IH; [done|exact Hchunk|].
  rewrite IH. destruct Hcs as [|c' cs' Hc' _]; [done|].
  unfold is_char in Hc'. apply andb_true_iff in Hc' as [_ Hlead].
  by destruct (Py.continues c').
Qed.

Lemma chars_text_chunk c cs :
  is_chunk c = true -> Forall (fun c => is_char c = true) cs ->
  Py.chars (Py.text (c :: cs)) = c :: cs.
Proof.
  intros Hc Hcs. destruct c as [|b t]; [done|].
  rewrite text_cons, append_cons, chars_run, (chars_text cs Hcs); [done|exact Hc|].
  rewrite (chars_text cs Hcs). destruct Hcs as [|c' cs' Hc' _]; [done|].
  unfold is_char in Hc'. apply andb_true_iff in Hc' as [_ Hlead].
  by destruct (Py.continues c').
Qed.

Lemma lead_not_continuation b :
  (N_of_ascii b < 128 \/ 192 <= N_of_ascii b)%N -> Py.continuation b = false.
Proof.
  unfold Py.continuation. intros [H|H].
  - apply andb_false_iff. left. apply N.leb_gt. lia.
  - apply andb_false_iff. right. apply N.ltb_ge. lia.
Qed.

(** Only a character proper has a code point. *)
Lemma ord_is_char c cp : Py.ord c = Some cp -> is_char c = true.
Proof.
  unfold is_char, is_chunk, Py.continues.
  destruct c as [|b [|b1 [|b2 [|b3 [|b4 t]]]]]; cbn [Py.ord Py.all_bytes]; try done;
    intros H; case_match; try done;
    repeat match goal with
      | H : _ && _ = true |- _ => apply andb_true_iff in H as [? ?]
      end;
    repeat match goal with
      | H : (_ <? _)%N = true |- _ => apply N.ltb_lt in H
      | H : (_ <=? _)%N = true |- _ => apply N.leb_le in H
      end;
    rewrite (lead_not_continuation b) by lia;
    repeat match goal with
      | H : Py.continuation _ = true |- _ => rewrite H
      end;
    reflexivity.
Qed.


Lemma isdigit_is_char c : Py.isdigit c = true -> is_char c = true.
Proof.
  unfold Py.isdigit. destruct (Py.ord c) eqn:E; [|done]. intros _.
  by eapply ord_is_char.
Qed.

Lemma whitespace_cases cp :
  Py.in_table Py.whitespace cp = true ->
  In cp [0x9; 0xA; 0xB; 0xC; 0xD; 0x1C; 0x1D; 0x1E; 0x1F; 0x20; 0x85; 0xA0; 0x1680;
         0x2000; 0x2001; 0x2002; 0x2003; 0x2004; 0x2005; 0x2006; 0x2007; 0x2008;
         0x2009; 0x200A; 0x2028; 0x2029; 0x202F; 0x205F; 0x3000]%N.
Proof.
  unfold Py.in_table, Py.whitespace. cbn [existsb In].
  rewrite !orb_true_iff, !andb_true_iff, !N.leb_le, !N.ltb_lt. lia.
Qed.

(** No whitespace character is a digit. *)
Lemma space_not_digit c : Py.isspace c = true -> Py.isdigit c = false.
Proof.
  unfold Py.isspace, Py.isdigit. destruct (Py.ord c) as [cp|]; [|done].
  intros H%whitespace_cases. cbn [In] in H.
  repeat (destruct H as [<-|H]; [vm_compute; reflexivity|]). done.
Qed.

(** A character of one byte is a digit exactly when it is one of 0 to 9. *)
Lemma isdigit_byte b : Py.isdigit (String b EmptyString) = Py.decimal b.
Proof. destruct b as [[] [] [] [] [] [] [] []]; vm_compute; reflexivity. Qed.

Lemma plain_not_continuation b : plain b = true -> Py.continuation b = false.
Proof. destruct b as [[] [] [] [] [] [] [] []]; vm_compute; congruence. Qed.

Lemma lower_char_plain b : plain (Py.lower_char b) = plain b.
Proof. destruct b as [[] [] [] [] [] [] [] []]; vm_compute; reflexivity. Qed.

Lemma all_bytes_append p a b :
  Py.all_bytes p (a +:+ b) = Py.all_bytes p a && Py.all_bytes p b.
Proof.
  induction a as [|c a IH]; [done|]. rewrite append_cons. simpl.
  by rewrite IH, andb_assoc.
Qed.

Lemma all_bytes_lower s : Py.all_bytes plain (Py.lower s) = Py.all_bytes plain s.
Proof.
  induction s as [|b r IH]; [done|]. simpl. by rewrite lower_char_plain, IH.
Qed.

Lemma all_bytes_text p cs :
  Py.all_bytes p (Py.text cs) = true -> Forall (fun c => Py.all_bytes p c = true) cs.
Proof.
  induction cs as [|c cs IH]; [done|]. rewrite text_cons, all_bytes_append.
  intros [Hc Hcs]%andb_true_iff. constructor; auto.
Qed.

(** A chunk of ASCII bytes that are no digits is one such byte, and no
    digit. *)
Lemma plain_chunk_no_digit c :
  is_chunk c = true -> Py.all_bytes plain c = true -> Py.isdigit c = false.
Proof.
  destruct c as [|b [|k t]]; [done| |].
  - simpl. intros _ Hb. rewrite andb_true_r in Hb. rewrite isdigit_byte.
    unfold plain in Hb. apply andb_true_iff in Hb as [_ Hb].
    by destruct (Py.decimal b).
  - simpl. intros [Hk _]%andb_true_iff [_ [Hp _]%andb_true_iff]%andb_true_iff.
    apply plain_not_continuation in Hp. congruence.
Qed.

Lemma lstrip_chars_split cs :
  exists l, cs = l ++ Py.lstrip_chars cs /\ forallb Py.isspace l = true.
Proof.
  induction cs as [|c rest (l & Hl & Hs)]; [by exists []|]. simpl.
  destruct (Py.isspace c) eqn:E.
  - exists (c :: l). simpl. rewrite E, Hs. split; [|done]. by rewrite <- Hl.
  - by exists [].
Qed.

Lemma rstrip_chars_split cs :
  exists r, cs = Py.rstrip_chars cs ++ r /\ forallb Py.isspace r = true.
Proof.
  induction cs as [|c rest (r & Hr & Hs)]; [by exists []|]. simpl.
  destruct (Py.rstrip_chars rest) as [|c' kept].
  - destruct (Py.isspace c) eqn:E.
    + exists (c :: r). simpl in *. rewrite E, Hs. split; [|done]. by rewrite <- Hr.
    + exists r. simpl in *. split; [|done]. by rewrite <- Hr.
  - exists r. split; [|done]. simpl in *. by rewrite <- Hr.
Qed.




Lemma lstrip_chars_chars cs :
  Forall (fun c => is_char c = true) cs ->
  Forall (fun c => is_char c = true) (Py.lstrip_chars cs).
Proof.
  induction 1 as [|c rest Hc Hrest IH]; [done|]. simpl.
  destruct (Py.isspace c); [done|]. by constructor.
Qed.

Lemma rstrip_chars_chars (P : string -> Prop) cs :
  Forall P cs -> Forall P (Py.rstrip_chars cs).
Proof.
  induction 1 as [|c rest Hc Hrest IH]; [done|]. simpl.
  destruct (Py.rstrip_chars rest) as [|c' kept].
  - destruct (Py.isspace c); [done|]. by constructor.
  - by constructor.
Qed.

(** The characters [strip] keeps, cut again from its result. *)
Lemma chars_strip s :
  Py.chars (Py.strip s) = Py.rstrip_chars (Py.lstrip_chars (Py.chars s)).
Proof.
  unfold Py.strip. pose proof (chars_shape s) as Hshape.
  destruct (Py.chars s) as [|c cs]; [done|]. destruct Hshape as [Hc Hcs].
  simpl. destruct (Py.isspace c) eqn:E.
  - apply chars_text, rstrip_chars_chars, lstrip_chars_chars, Hcs.
  - simpl. rewrite E. pose proof (rstrip_chars_chars _ cs Hcs) as Hkept.
    destruct (Py.rstrip_chars cs) as [|c' kept].
    + by apply chars_text_chunk.
    + by apply chars_text_chunk.
Qed.



Lemma filter_none (p : string -> bool) cs :
  Forall (fun c => p c = false) cs -> List.filter p cs = [].
Proof. induction 1 as [|c rest Hc _ IH]; [done|]. simpl. by rewrite Hc. Qed.

Lemma filter_all (p : string -> bool) cs :
  forallb p cs = true -> List.filter p cs = cs.
Proof.
  induction cs as [|c rest IH]; [done|]. simpl.
  intros [-> Hrest]%andb_true_iff. by rewrite IH.
Qed.

Lemma forallb_filter (p : string -> bool) cs : forallb p (List.filter p cs) = true.
Proof.
  induction cs as [|c rest IH]; [done|]. simpl.
  destruct (p c) eqn:E; [|done]. simpl. by rewrite E.
Qed.

Lemma digits_are_chars cs :
  forallb Py.isdigit cs = true -> Forall (fun c => is_char c = true) cs.
Proof.
  rewrite forallb_forall, Forall_forall. intros H c Hc.
  apply isdigit_is_char, H. by apply list_elem_of_In.
Qed.

(** The characters of [filter(str.isdigit, s)] are the digits among the
    characters of [s]. *)
Lemma chars_filter_digits s :
  Py.chars (Py.filter Py.isdigit s) = List.filter Py.isdigit (Py.chars s).
Proof. apply chars_text, digits_are_chars, forallb_filter. Qed.

Lemma filter_only_digits s : only_digits (Py.filter Py.isdigit s) = true.
Proof. unfold only_digits. rewrite chars_filter_digits. apply forallb_filter. Qed.

Lemma filter_digits_id s : only_digits s = true -> Py.filter Py.isdigit s = s.
Proof.
  unfold only_digits, Py.filter. intros H. by rewrite (filter_all _ _ H), text_chars.
Qed.

Lemma chars_empty s : Py.chars s = [] -> s = EmptyString.
Proof. intros H. by rewrite <- (text_chars s), H. Qed.

Lemma filter_empty_iff s : Py.filter Py.isdigit s = EmptyString <-> has_digit s = false.
Proof.
  unfold has_digit. split.
  - intros H. assert (Hf : List.filter Py.isdigit (Py.chars s) = []).
    { rewrite <- chars_filter_digits. by rewrite H. }
    induction (Py.chars s) as [|c cs IH]; [done|]. simpl in *.
    destruct (Py.isdigit c); [done|]. by apply IH.
  - intros H. unfold Py.filter. rewrite filter_none; [done|].
    induction (Py.chars s) as [|c cs IH]; [done|]. simpl in H.
    apply orb_false_iff in H as [Hc Hcs]. constructor; auto.
Qed.

Lemma filter_spaces cs :
  forallb Py.isspace cs = true -> List.filter Py.isdigit cs = [].
Proof.
  intros H. apply filter_none. rewrite forallb_forall in H.
  apply Forall_forall. intros c Hc. apply space_not_digit, H.
  by apply list_elem_of_In.
Qed.

(** The digits of a text are those of what [strip] keeps of it. *)
Lemma filter_strip s : Py.filter Py.isdigit (Py.strip s) = Py.filter Py.isdigit s.
Proof.
  unfold Py.filter at 1. rewrite chars_strip. unfold Py.filter.
  destruct (lstrip_chars_split (Py.chars s)) as (l & Hl & Hls).
  destruct (rstrip_chars_split (Py.lstrip_chars (Py.chars s))) as (r & Hr & Hrs).
  rewrite Hl at 2. rewrite Hr at 2.
  rewrite !List.filter_app, (filter_spaces l Hls), (filter_spaces r Hrs).
  by rewrite app_nil_r.
Qed.

(** A text that reads [telefones] once lowered holds no digit. *)
Lemma lowered_word_no_digit s :
  Py.lower s = "telefones" -> Py.filter Py.isdigit s = EmptyString.
Proof.
  intros H.
  assert (Hplain : Py.all_bytes plain s = true)
    by (by rewrite <- all_bytes_lower, H).
  rewrite <- (text_chars s) in Hplain. apply all_bytes_text in Hplain.
  unfold Py.filter. rewrite filter_none; [done|].
  pose proof (chars_chunks s) as Hchunks.
  induction Hplain as [|c cs Hc _ IH]; [done|].
  apply Forall_cons in Hchunks as [Hchunk Hchunks].
  constructor; [by apply plain_chunk_no_digit|by apply IH].
Qed.

(** ** Properties of the number source *)

Section NumberSource.

Implicit Types (numbers acc : list string) (seen : gset string).

Lemma unique_loop_acc numbers : forall seen acc,
  unique_loop numbers seen acc = acc ++ unique_loop numbers seen [].
Proof.
  induction numbers as [|x rest IH]; intros seen acc; simpl.
  - by rewrite app_nil_r.
  - destruct (decide (x ∉ seen)); [|apply IH].
    rewrite (IH _ (acc ++ [x])), (IH _ ([] ++ [x])). by rewrite <- app_assoc.
Qed.

Lemma unique_loop_elem numbers : forall seen x,
  x ∈ unique_loop numbers seen [] <-> x ∈ numbers /\ x ∉ seen.
Proof.
  induction numbers as [|y rest IH]; intros seen x; simpl.
  - set_solver.
  - destruct (decide (y ∉ seen)) as [Hy|Hy].
    + rewrite unique_loop_acc. simpl. rewrite elem_of_cons, IH, elem_of_cons.
      destruct (decide (x = y)); set_solver.
    + rewrite IH, elem_of_cons. apply dec_stable in Hy. set_solver.
Qed.

Lemma unique_loop_NoDup numbers : forall seen, NoDup (unique_loop numbers seen []).
Proof.
  induction numbers as [|y rest IH]; intros seen; simpl.
  - constructor.
  - destruct (decide (y ∉ seen)); [|apply IH].
    rewrite unique_loop_acc. simpl. constructor; [|apply IH].
    rewrite unique_loop_elem. set_solver.
Qed.

Lemma unique_loop_sublist numbers : forall seen,
  unique_loop numbers seen [] `sublist_of` numbers.
Proof.
  induction numbers as [|y rest IH]; intros seen; simpl.
  - constructor.
  - destruct (decide (y ∉ seen)).
    + rewrite unique_loop_acc. simpl. constructor. apply IH.
    + constructor. apply IH.
Qed.

Lemma unique_loop_app l1 : forall l2 seen acc,
  unique_loop (l1 ++ l2) seen acc
  = unique_loop l2 (list_to_set l1 ∪ seen) (unique_loop l1 seen acc).
Proof.
  induction l1 as [|x l1 IH]; intros l2 seen acc; simpl.
  - f_equal. set_solver.
  - destruct (decide (x ∉ seen)) as [Hx|Hx]; rewrite IH; f_equal.
    + set_solver.
    + apply dec_stable in Hx. set_solver.
Qed.

(** The first occurrence of [x] lands right after the distinct numbers that
    come before it. *)
Lemma unique_loop_first numbers i x :
  numbers !! i = Some x -> x ∉ take i numbers ->
  unique_loop numbers ∅ [] !! length (unique_loop (take i numbers) ∅ []) = Some x.
Proof.
  intros Hi Hx.
  pose proof (take_drop_middle numbers i x Hi) as Hsplit.
  set (before := take i numbers) in *. rewrite <- Hsplit.
  rewrite unique_loop_app. simpl.
  destruct (decide (x ∉ list_to_set before ∪ (∅ : gset string))) as [_|Hn].
  - rewrite (unique_loop_acc (drop (S i) numbers)), <- app_assoc. simpl.
    by rewrite lookup_app_r, Nat.sub_diag by lia.
  - exfalso. apply Hn. set_solver.
Qed.

Lemma read_column_uncapped limit cells : forall acc,
  (limit = None \/ limit = Some 0%Z) ->
  read_column limit cells acc = acc ++ entries cells.
Proof.
  intros acc Hl.
  assert (Hr : forall numbers, limit_reached limit numbers = false)
    by (intros; destruct Hl as [-> | ->]; reflexivity).
  revert acc. induction cells as [|v rest IH]; intros acc; simpl.
  - by rewrite app_nil_r.
  - unfold entries. simpl. fold (entries rest).
    destruct (is_header v); [apply IH|].
    destruct (normalize_phone v) as [d|]; [|apply IH].
    rewrite Hr, IH. by rewrite <- app_assoc.
Qed.

Lemma read_column_capped (n : Z) cells : forall acc,
  (0 < n)%Z -> length acc < Z.to_nat n ->
  read_column (Some n) cells acc = take (Z.to_nat n) (acc ++ entries cells).
Proof.
  intros acc Hn. revert acc.
  induction cells as [|v rest IH]; intros acc Hacc; simpl.
  - rewrite app_nil_r, take_ge; [done | lia].
  - unfold entries. simpl. fold (entries rest).
    destruct (is_header v); [by apply IH|].
    destruct (normalize_phone v) as [d|]; [|by apply IH].
    unfold limit_reached. rewrite length_app. simpl.
    destruct (n =? 0)%Z eqn:E0; [lia|]. simpl.
    destruct (Z.of_nat (length acc + 1) >=? n)%Z eqn:E;
      rewrite Z.geb_leb in E;
      rewrite (cons_middle d acc (entries rest)), (app_assoc acc [d]).
    + apply Z.leb_le in E. rewrite take_app_le by (rewrite length_app; simpl; lia).
      rewrite take_ge; [done | rewrite length_app; simpl; lia].
    + apply Z.leb_gt in E. by rewrite IH by (rewrite length_app; simpl; lia).
Qed.

End NumberSource.

Section Workbook.

Context {W : Type} (oracle : forall c : call, W -> result (answer c) * W).

(** When the four calls on the workbook succeed, [load_numbers] returns the
    result of its two loops on the cells of the column. *)
Lemma load_numbers_reads workbook_path sheet_name column limit (s : state W) cells w' :
  workbook_read oracle workbook_path sheet_name column (world s) cells w' ->
  load_numbers oracle workbook_path sheet_name column limit s
  = (Ret (unique_loop (read_column limit cells []) ∅ []),
     State w' (trace s ++ succeeded (workbook_calls workbook_path sheet_name column))
       (store s)).
Proof.
  intros (w1 & w2 & w3 & H1 & H2 & H3 & H4).
  unfold load_numbers, external, mbind, M_bind, mret, M_ret.
  rewrite H1. simpl. rewrite H2. simpl. rewrite H3. simpl. rewrite H4. simpl.
  by rewrite <- !app_assoc.
Qed.

(** [load_numbers] returns in no other case. *)
Lemma load_numbers_returns workbook_path sheet_name column limit (s : state W) unique s' :
  load_numbers oracle workbook_path sheet_name column limit s = (Ret unique, s') ->
  exists cells,
    workbook_read oracle workbook_path sheet_name column (world s) cells (world s')
    /\ unique = load_numbers_from cells limit.
Proof.
  unfold load_numbers, load_numbers_from, workbook_read, mbind, M_bind, mret, M_ret,
    external.
  intros H.
  destruct (oracle (LoadWorkbook workbook_path) (world s)) as [[[]|?] w1] eqn:H1;
    [|done].
  simpl in H.
  destruct (oracle (GetSheet sheet_name) w1) as [[[]|?] w2] eqn:H2; [|done].
  simpl in H.
  destruct (oracle (GetColumn column) w2) as [[cells|?] w3] eqn:H3; [|done].
  simpl in H.
  destruct (oracle WorkbookClose w3) as [[[]|?] w4] eqn:H4; [|done]. simpl in H.
  exists cells. simplify_eq. split; [|done]. by exists w1, w2, w3.
Qed.

End Workbook.

Lemma unique_loop_length (numbers : list string) :
  length (unique_loop numbers ∅ []) = length (remove_dups numbers).
Proof.
  apply Permutation_length, NoDup_Permutation.
  - apply unique_loop_NoDup.
  - apply NoDup_remove_dups.
  - intros x. rewrite unique_loop_elem, elem_of_remove_dups. set_solver.
Qed.

(** C6. When the workbook can be read, [load_numbers] returns the numbers of
    the column without duplicates, in the order of their first occurrences.
    With [numbers] the normalized entries collected from the column (all its
    valid entries when there is no limit), the list returned has no
    duplicate, has the same members as [numbers], is a subsequence of
    [numbers], and holds the number first met at index [i] at the position
    that counts the distinct numbers met before [i].  On the column
    11999999999, 11999999999, 11988888888 it returns 11999999999,
    11988888888. *)
Theorem load_numbers_dedup_first_occurrence {W}
    (oracle : forall c : call, W -> result (answer c) * W)
    (workbook_path sheet_name column : string) (limit : option Z) (s : state W)
    (cells : list cell_value) (w' : W) :
  workbook_read oracle workbook_path sheet_name column (world s) cells w' ->
  let numbers := read_column limit cells [] in
  (exists unique,
     load_numbers oracle workbook_path sheet_name column limit s
     = (Ret unique,
        State w' (trace s ++ succeeded (workbook_calls workbook_path sheet_name column))
          (store s))
     /\ NoDup unique
     /\ (forall x, x ∈ unique <-> x ∈ numbers)
     /\ unique `sublist_of` numbers
     /\ (forall i x, numbers !! i = Some x -> x ∉ take i numbers ->
           unique !! length (remove_dups (take i numbers)) = Some x))
  /\ (limit = None -> numbers = entries cells)
  /\ (load_numbers
        (scripted "" [VStr "11999999999"; VStr "11999999999"; VStr "11988888888"] never)
        "Pasta3.xlsx" "Planilha78" "A" None initial).1
     = Ret ["11999999999"; "11988888888"].
Proof.
  intros Hread numbers. split; [|split].
  - exists (unique_loop numbers ∅ []).
    split; [by apply load_numbers_reads|].
    split; [apply unique_loop_NoDup|].
    split; [intros x; rewrite unique_loop_elem; set_solver|].
    split; [apply unique_loop_sublist|].
    intros i x Hi Hx. rewrite <- unique_loop_length. by apply unique_loop_first.
  - intros ->. apply (read_column_uncapped None cells []). by left.
  - vm_compute. reflexivity.
Qed.

Lemma load_numbers_dedup_first_occurrence_witness :
  exists unique,
    load_numbers
      (scripted "" [VStr "(11) 98888-8888"; VStr "11 98888 8888"; VInt 11977777777] never)
      "Pasta3.xlsx" "Planilha78" "A" None initial
    = (Ret unique,
       State 4 (trace initial ++ succeeded (workbook_calls "Pasta3.xlsx" "Planilha78" "A"))
         (store initial))
    /\ NoDup unique
    /\ (forall x, x ∈ unique
                  <-> x ∈ read_column None
                            [VStr "(11) 98888-8888"; VStr "11 98888 8888";
                             VInt 11977777777] [])
    /\ unique `sublist_of`
         read_column None
           [VStr "(11) 98888-8888"; VStr "11 98888 8888"; VInt 11977777777] []
    /\ (forall i x,
          read_column None
            [VStr "(11) 98888-8888"; VStr "11 98888 8888"; VInt 11977777777] [] !! i
          = Some x ->
          x ∉ take i (read_column None
                        [VStr "(11) 98888-8888"; VStr "11 98888 8888";
                         VInt 11977777777] []) ->
          unique
          !! length (remove_dups
                       (take i (read_column None
                                  [VStr "(11) 98888-8888"; VStr "11 98888 8888";
                                   VInt 11977777777] [])))
          = Some x).
Proof.
  apply (load_numbers_dedup_first_occurrence
           (scripted "" [VStr "(11) 98888-8888"; VStr "11 98888 8888"; VInt 11977777777]
              never)
           "Pasta3.xlsx" "Planilha78" "A" None initial
           [VStr "(11) 98888-8888"; VStr "11 98888 8888"; VInt 11977777777] 4).
  by exists 1, 2, 3.
Defined.

(** C9. A positive limit caps the column before duplicates are removed: the
    first loop keeps the first [limit] valid entries, duplicates counted, and
    [load_numbers] returns these without their duplicates, so never more than
    [limit] numbers; with a limit of [None] or [0] it returns every valid
    entry of the column.  The column 11999999999, 11999999999, 11988888888
    with limit 2 gives one number, although a second distinct number
    follows. *)
Theorem load_numbers_limit_before_dedup {W}
    (oracle : forall c : call, W -> result (answer c) * W)
    (workbook_path sheet_name column : string) (s : state W)
    (cells : list cell_value) (w' : W) (n : Z) :
  (0 < n)%Z ->
  workbook_read oracle workbook_path sheet_name column (world s) cells w' ->
  let returns limit unique :=
    load_numbers oracle workbook_path sheet_name column limit s
    = (Ret unique,
       State w' (trace s ++ succeeded (workbook_calls workbook_path sheet_name column))
         (store s)) in
  (exists unique,
     returns (Some n) unique
     /\ unique = unique_loop (take (Z.to_nat n) (entries cells)) ∅ []
     /\ length unique <= Z.to_nat n
     /\ (forall x, x ∈ unique <-> x ∈ take (Z.to_nat n) (entries cells)))
  /\ (forall limit, limit = None \/ limit = Some 0%Z ->
      exists unique,
        returns limit unique
        /\ unique = unique_loop (entries cells) ∅ []
        /\ (forall x, x ∈ unique <-> x ∈ entries cells))
  /\ (let oracle :=
        scripted "" [VStr "11999999999"; VStr "11999999999"; VStr "11988888888"] never in
      (load_numbers oracle "Pasta3.xlsx" "Planilha78" "A" (Some 2%Z) initial).1
      = Ret ["11999999999"]
      /\ (load_numbers oracle "Pasta3.xlsx" "Planilha78" "A" None initial).1
         = Ret ["11999999999"; "11988888888"]).
Proof.
  intros Hn Hread returns. split; [|split].
  - eexists. split; [by apply load_numbers_reads|].
    rewrite (read_column_capped n cells []) by (simpl; lia). simpl.
    split; [done|]. split.
    + etransitivity; [apply sublist_length, unique_loop_sublist|].
      rewrite length_take. lia.
    + intros x. rewrite unique_loop_elem. set_solver.
  - intros limit Hl. eexists. split; [by apply load_numbers_reads|].
    rewrite (read_column_uncapped limit cells [] Hl). simpl.
    split; [done|]. intros x. rewrite unique_loop_elem. set_solver.
  - split; vm_compute; reflexivity.
Qed.

Lemma load_numbers_limit_before_dedup_witness :
  exists unique,
    load_numbers (scripted "" [VStr "11 9"; VStr "119"; VInt 5] never)
      "Pasta3.xlsx" "Planilha78" "A" (Some 2%Z) initial
    = (Ret unique,
       State 4 (trace initial ++ succeeded (workbook_calls "Pasta3.xlsx" "Planilha78" "A"))
         (store initial))
    /\ unique
       = unique_loop (take (Z.to_nat 2) (entries [VStr "11 9"; VStr "119"; VInt 5])) ∅ []
    /\ length unique <= Z.to_nat 2
    /\ (forall x, x ∈ unique
                  <-> x ∈ take (Z.to_nat 2) (entries [VStr "11 9"; VStr "119"; VInt 5])).
Proof.
  refine (proj1 (load_numbers_limit_before_dedup
                   (scripted "" [VStr "11 9"; VStr "119"; VInt 5] never)
                   "Pasta3.xlsx" "Planilha78" "A" initial
                   [VStr "11 9"; VStr "119"; VInt 5] 4 2 _ _)).
  - lia.
  - by exists 1, 2, 3.
Defined.

(** ** Properties of the command line *)

Lemma fold_apply_arg_report_numbers argv : forall ns,
  report_numbers (fold_left apply_arg argv ns) = report_numbers ns ++ supplied argv.
Proof.
  induction argv as [|a rest IH]; intros ns; simpl.
  - by rewrite app_nil_r.
  - rewrite IH. destruct ns, a; simpl; try reflexivity.
    by rewrite <- app_assoc.
Qed.

(** ** Properties of the clock of the platform *)






(** A duration longer than [longest_sleep] does not fit the clock. *)
Lemma sleep_result_too_long (q : Q) :
  (longest_sleep < q)%Q ->
  sleep_result q
  = Raise (Exn "OverflowError" "timestamp too large to convert to C _PyTime_t").
Proof.
  intros Hq. unfold sleep_result.
  assert (Hgt : (PyTime_MAX < nanoseconds q)%Z).
  { unfold nanoseconds. destruct (Qle_bool 0 q) eqn:E.
    - pose proof (Qle_ceiling (q * 1000000000)) as Hc.
      rewrite Zlt_Qlt. eapply Qlt_le_trans; [|exact Hc].
      destruct q as [a b]. unfold Qlt, longest_sleep, PyTime_MAX in *.
      simpl in *. lia.
    - assert (Hneg : (q < 0)%Q).
      { apply Qnot_le_lt. intros Hle%Qle_bool_iff. congruence. }
      exfalso. apply (Qlt_irrefl 0). eapply Qlt_trans; [|exact Hneg].
      eapply Qlt_trans; [|exact Hq]. reflexivity. }
  unfold PyTime_MIN, PyTime_MAX in *.
  destruct (nanoseconds q <? -9223372036854775808)%Z eqn:E1; [done|].
  destruct (9223372036854775807 <? nanoseconds q)%Z eqn:E2; [done|lia].
Qed.

(** ** Properties of the message and of the report text *)


(** [format_duration] prints the whole seconds of a printable duration as a
    time of day, and raises for every other duration. *)
Lemma format_duration_printable seconds :
  printable seconds -> format_duration seconds = Ret (hms (Qfloor seconds)).
Proof.
  unfold printable, format_duration, gmtime, strftime_HMS, mbind, result_bind.
  unfold gmtime_MIN, gmtime_MAX, strftime_MAX, time_t_MIN, time_t_MAX.
  intros [Hmin Hmax].
  destruct (Qfloor seconds <? -9223372036854775808)%Z eqn:E1; [lia|].
  destruct (9223372036854775807 <? Qfloor seconds)%Z eqn:E2; [lia|].
  destruct (Qfloor seconds <? -67768040609740800)%Z eqn:E3; [lia|].
  destruct (67768036191676799 <? Qfloor seconds)%Z eqn:E4; [lia|]. simpl.
  destruct (67767976233532799 <? Qfloor seconds)%Z eqn:E5; [lia|]. done.
Qed.

Lemma format_duration_returns seconds text :
  format_duration seconds = Ret text -> printable seconds.
Proof.
  unfold printable, format_duration, gmtime, strftime_HMS, mbind, result_bind.
  unfold gmtime_MIN, gmtime_MAX, strftime_MAX, time_t_MIN, time_t_MAX.
  destruct (Qfloor seconds <? -9223372036854775808)%Z eqn:E1; [done|].
  destruct (9223372036854775807 <? Qfloor seconds)%Z eqn:E2; [done|].
  destruct (Qfloor seconds <? -67768040609740800)%Z eqn:E3; [done|].
  destruct (67768036191676799 <? Qfloor seconds)%Z eqn:E4; [done|]. simpl.
  destruct (67767976233532799 <? Qfloor seconds)%Z eqn:E5; [done|]. lia.
Qed.






(** ** Properties of the send protocol *)

Section SendProtocol.

Context {W : Type} (oracle : forall c : call, W -> result (answer c) * W).

Lemma since_app (s s' : state W) δ : trace s' = trace s ++ δ -> since s s' = δ.
Proof. unfold since. intros ->. by rewrite drop_app_length. Qed.

Ltac oracle_step :=
  match goal with
  | |- context [oracle ?c ?w] =>
      destruct (oracle c w) as [[?|?] ?]; cbv beta iota zeta
  end.

Ltac pick_attempt :=
  (exists true; eexists; split; [apply attempt_sent|])
  + (exists false; eexists; split;
     [(eapply (attempt_failed _ _ _ []) + eapply (attempt_failed _ _ _ [_])
       + eapply (attempt_failed _ _ _ [_; _])
       + eapply (attempt_failed _ _ _ [_; _; _])); reflexivity|]).

Ltac pick_dismissal :=
  (eexists; split; [apply dismissal_no_alert|])
  + (eexists; split; [apply dismissal_not_accepted|])
  + (eexists; split; [apply dismissal_accepted|]).

(** One [send_message], whatever the browser does and whatever the delay:
    after the attempt, either [time.sleep] accepts the delay and the alert is
    dismissed, or it refuses the delay and its exception escapes. *)
Lemma send_message_run b wait number message delay (s : state W) :
  exists ok events, attempt wait number message ok events /\
    match sleep_result delay with
    | Ret q =>
        exists alert, dismissal alert /\ exists s',
          send_message oracle b wait number message delay s = (Ret ok, s')
          /\ store s' = store s
          /\ trace s' = trace s ++ events ++ Slept q :: alert
    | Raise e =>
        exists s',
          send_message oracle b wait number message delay s = (Raise e, s')
          /\ store s' = store s
          /\ trace s' = trace s ++ events
    end.
Proof.
  destruct s as [w0 tr st].
  cbv beta iota zeta delta [send_message try_finally try_except dismiss_alert
    wait_for_message_box sleep logging record raise external mbind M_bind mret
    M_ret world trace store raised].
  destruct (sleep_result delay); repeat oracle_step;
    solve [ pick_attempt; try pick_dismissal; eexists;
            (split; [reflexivity|]); (split; [reflexivity|]);
            simpl; rewrite <- ?app_assoc; reflexivity ].
Qed.

End SendProtocol.

(** ** Relations that every step of a computation preserves *)

Section Preserved.

Context {W : Type} (R : relation (state W)) `{!PreOrder R}.

Lemma preserves_ret {A} (a : A) : preserves R (mret a).
Proof. intros s. reflexivity. Qed.

Lemma preserves_raise {A} e : preserves R (raise (A := A) e).
Proof. intros s. reflexivity. Qed.

Lemma preserves_bind {A B} (m : M W A) (k : A -> M W B) :
  preserves R m -> (forall a, preserves R (k a)) -> preserves R (m ≫= k).
Proof.
  intros Hm Hk s. specialize (Hm s). unfold mbind, M_bind.
  destruct (m s) as [[a|e] s1]; simpl in *; [|done].
  etransitivity; [exact Hm|apply Hk].
Qed.

Lemma preserves_try_except {A} (body : M W A) handler :
  preserves R body -> (forall exc, preserves R (handler exc)) ->
  preserves R (try_except body handler).
Proof.
  intros Hb Hh s. specialize (Hb s). unfold try_except.
  destruct (body s) as [[a|e] s1]; simpl in *; [done|].
  etransitivity; [exact Hb|apply Hh].
Qed.

Lemma preserves_try_finally {A} (body : M W A) final :
  preserves R body -> preserves R final -> preserves R (try_finally body final).
Proof.
  intros Hb Hf s. specialize (Hb s). unfold try_finally.
  destruct (body s) as [r s1]. specialize (Hf s1).
  destruct (final s1) as [[[]|e] s2]; simpl in *; etransitivity; eauto.
Qed.

Lemma preserves_for_each {A} (xs : list A) body :
  (forall x, preserves R (body x)) -> preserves R (for_each xs body).
Proof.
  intros Hb. induction xs as [|x rest IH]; simpl.
  - apply preserves_ret.
  - apply preserves_bind; auto.
Qed.

End Preserved.

Section Frames.

Context {W : Type} (oracle : forall c : call, W -> result (answer c) * W)
  (clock : W -> Q * W).

#[global] Instance trace_by_preorder P : PreOrder (trace_by (W := W) P).
Proof.
  split.
  - intros s. exists []. by rewrite app_nil_r.
  - intros s1 s2 s3 [d1 [H1 P1]] [d2 [H2 P2]]. exists (d1 ++ d2).
    rewrite H2, H1, app_assoc, forallb_app, P1, P2. done.
Qed.

Lemma trace_by_weaken (P Q : event -> bool) (s s' : state W) :
  (forall ev, P ev = true -> Q ev = true) -> trace_by P s s' -> trace_by Q s s'.
Proof.
  intros HPQ [δ [Hδ HP]]. exists δ. split; [done|].
  rewrite forallb_forall in *. auto.
Qed.

#[global] Instance same_store_preorder : PreOrder (same_store (W := W)).
Proof. split; unfold same_store; [done | congruence]. Qed.

Lemma external_trace P c :
  (forall r, P (Called c r) = true) -> preserves (trace_by P) (external oracle c).
Proof.
  intros HP s. unfold external. destruct (oracle c (world s)) as [r w]. simpl.
  exists [Called c (raised r)]. simpl. by rewrite HP.
Qed.

Lemma record_trace P ev : P ev = true -> preserves (W := W) (trace_by P) (record ev).
Proof. intros HP s. exists [ev]. simpl. by rewrite HP. Qed.

Lemma logging_trace P lvl format args :
  P (Logged lvl format args) = true ->
  preserves (W := W) (trace_by P) (logging lvl format args).
Proof. apply record_trace. Qed.

Lemma sleep_trace P seconds :
  (forall q, P (Slept q) = true) -> preserves (W := W) (trace_by P) (sleep seconds).
Proof.
  intros HP. unfold sleep. destruct (sleep_result seconds).
  - by apply record_trace.
  - apply preserves_raise, _.
Qed.

Lemma time_time_trace P :
  (forall now, P (Clock now) = true) -> preserves (trace_by P) (time_time clock).
Proof.
  intros HP s. unfold time_time. destruct (clock (world s)) as [now w]. simpl.
  exists [Clock now]. simpl. by rewrite HP.
Qed.

Lemma new_list_trace P : preserves (W := W) (trace_by P) new_list.
Proof. intros s. exists []. simpl. by rewrite app_nil_r. Qed.

Lemma append_trace P l x : preserves (W := W) (trace_by P) (append l x).
Proof. intros s. exists []. simpl. by rewrite app_nil_r. Qed.

Lemma reading_trace {A} P (f : _ -> result A) :
  preserves (W := W) (trace_by P) (reading f).
Proof. intros s. exists []. simpl. by rewrite app_nil_r. Qed.

Lemma external_store c : preserves same_store (external oracle c).
Proof. intros s. unfold external. by destruct (oracle c (world s)). Qed.

Lemma record_store ev : preserves (W := W) same_store (record ev).
Proof. by intros s. Qed.

Lemma sleep_store seconds : preserves (W := W) same_store (sleep seconds).
Proof. intros s. unfold sleep. by destruct (sleep_result seconds). Qed.

Lemma time_time_store : preserves same_store (time_time clock).
Proof. intros s. unfold time_time. by destruct (clock (world s)). Qed.

End Frames.

Create HintDb frames.

#[local] Hint Resolve external_trace record_trace logging_trace sleep_trace
  time_time_trace new_list_trace append_trace reading_trace external_store
  record_store sleep_store time_time_store : frames.

(** Walks through the binds, loops and handlers of a computation and leaves
    the facts about its primitive steps to the hints. *)
Ltac frame :=
  repeat match goal with
    | |- PreOrder _ => apply _
    | |- forall _, _ => intros ?
    | |- preserves _ (if ?b then _ else _) => destruct b
    | |- preserves _ (match ?x with _ => _ end) => destruct x
    | |- preserves _ (external ?o ?c) =>
        first [ apply (external_trace o _ c); intros ?; reflexivity
              | apply (external_store o c) ]
    | |- preserves _ _ =>
        first [ solve [eauto with frames]
              | apply preserves_ret | apply preserves_raise
              | apply preserves_bind | apply preserves_try_except
              | apply preserves_try_finally | apply preserves_for_each ]
    end.

Section SendFrames.

Context {W : Type} (oracle : forall c : call, W -> result (answer c) * W).

Lemma send_message_trace b wait number message delay :
  preserves (trace_by sending) (send_message oracle b wait number message delay).
Proof.
  unfold send_message, dismiss_alert, wait_for_message_box. frame.
Qed.

Lemma send_message_store b wait number message delay :
  preserves same_store (send_message oracle b wait number message delay).
Proof.
  unfold send_message, dismiss_alert, wait_for_message_box, logging. frame.
Qed.

Lemma process_numbers_trace b wait numbers message delay :
  preserves (trace_by sending) (process_numbers oracle b wait numbers message delay).
Proof.
  pose proof send_message_trace. unfold process_numbers. frame.
Qed.

Lemma send_report_trace b wait numbers message delay :
  preserves (trace_by sending) (send_report oracle b wait numbers message delay).
Proof.
  pose proof send_message_trace. unfold send_report. frame.
Qed.

Lemma send_report_store b wait numbers message delay :
  preserves same_store (send_report oracle b wait numbers message delay).
Proof.
  pose proof send_message_store. unfold send_report, logging. frame.
Qed.

End SendFrames.

(** ** Properties of the run of one list of numbers *)

Lemma gets_app tr1 tr2 : gets (tr1 ++ tr2) = gets tr1 ++ gets tr2.
Proof. apply omap_app. Qed.

Lemma attempt_gets wait number message ok events :
  attempt wait number message ok events -> gets events = [send_url number].
Proof.
  intros [|passed c rest exc Hp]; [reflexivity|].
  unfold protocol in Hp.
  destruct passed as [|c1 [|c2 [|c3 [|c4 tl]]]]; simpl in Hp; simplify_eq;
    try reflexivity.
  by destruct tl.
Qed.

Lemma dismissal_gets alert : dismissal alert -> gets alert = [].
Proof. by intros []. Qed.

Lemma picked_length numbers : forall oks,
  length oks = length numbers ->
  length (picked true numbers oks) + length (picked false numbers oks)
  = length numbers.
Proof.
  induction numbers as [|x rest IH]; intros [|[] oks] Hl; simplify_eq/=;
    try done; rewrite <- (IH oks) by done; lia.
Qed.


Lemma picked_permutation numbers : forall oks,
  length oks = length numbers ->
  picked true numbers oks ++ picked false numbers oks ≡ₚ numbers.
Proof.
  induction numbers as [|x rest IH]; intros [|[] oks] Hl; simplify_eq/=; try done.
  - by rewrite IH.
  - by rewrite <- Permutation_middle, IH.
Qed.


Section Orchestrator.

Context {W : Type} (oracle : forall c : call, W -> result (answer c) * W).

Lemma bind_ret_run {A B} (m : M W A) (k : A -> M W B) s a s1 :
  m s = (Ret a, s1) -> (m ≫= k) s = k a s1.
Proof. intros H. unfold mbind, M_bind. by rewrite H. Qed.

Lemma bind_raise_run {A B} (m : M W A) (k : A -> M W B) s e s1 :
  m s = (Raise e, s1) -> (m ≫= k) s = (Raise e, s1).
Proof. intros H. unfold mbind, M_bind. by rewrite H. Qed.

(** The loop of [process_numbers] when [time.sleep] accepts the delay: every
    send returns, and each number goes to the end of one of the two lists. *)
Lemma process_loop b wait message delay q σ numbers :
  sleep_result delay = Ret q ->
  forall (s : state W) successful failed,
    store s = σ ++ [successful; failed] ->
    exists oks s' δ,
      for_each numbers (fun number =>
        ok ← send_message oracle b wait number message delay;
        if ok : bool then append (length σ) number
        else append (S (length σ)) number) s = (Ret tt, s')
      /\ length oks = length numbers
      /\ store s' = σ ++ [successful ++ picked true numbers oks;
                          failed ++ picked false numbers oks]
      /\ trace s' = trace s ++ δ
      /\ gets δ = map send_url numbers.
Proof.
  intros Hd. induction numbers as [|number rest IH]; intros s successful failed Hs.
  - exists [], s, []. simpl. by rewrite !app_nil_r.
  - destruct (send_message_run oracle b wait number message delay s)
      as (ok & events & Hev & Hrun).
    rewrite Hd in Hrun. destruct Hrun as (alert & Hal & s1 & Hrun & Hst & Htr).
    set (s2 := State (world s1) (trace s1)
                 (σ ++ [successful ++ picked true [number] [ok];
                        failed ++ picked false [number] [ok]])).
    destruct (IH s2 _ _ eq_refl) as (oks & s' & δ & Hloop & Hlen & Hst' & Htr' & Hg).
    exists (ok :: oks), s', (events ++ Slept q :: alert ++ δ).
    split.
    { cbn [for_each]. rewrite (bind_ret_run _ _ s tt s2); [exact Hloop|].
      rewrite (bind_ret_run _ _ s ok s1 Hrun).
      destruct ok; unfold s2, append; rewrite Hst, Hs; do 2 f_equal; simpl.
      - replace (length σ) with (length σ + 0) at 1 by lia.
        rewrite alter_app_r. simpl. by rewrite app_nil_r.
      - replace (S (length σ)) with (length σ + 1) at 1 by lia.
        rewrite alter_app_r. simpl. by rewrite app_nil_r. }
    split; [simpl; lia|].
    split.
    { rewrite Hst'. destruct ok; simpl; by rewrite <- ?app_assoc, ?app_nil_r. }
    split.
    { rewrite Htr'. simpl. rewrite Htr. by rewrite <- !app_assoc. }
    rewrite gets_app. simpl. rewrite gets_app, Hg.
    by rewrite (attempt_gets _ _ _ _ _ Hev), (dismissal_gets _ Hal).
Qed.

End Orchestrator.

Lemma content_fst (σ : list (list string)) a b : content (σ ++ [a; b]) (length σ) = a.
Proof.
  unfold content. rewrite lookup_app_r by lia. by rewrite Nat.sub_diag.
Qed.

Lemma content_snd (σ : list (list string)) a b :
  content (σ ++ [a; b]) (S (length σ)) = b.
Proof.
  unfold content. rewrite lookup_app_r by lia.
  by replace (S (length σ) - length σ) with 1 by lia.
Qed.









(** ** Properties of the report dispatch *)

Lemma valid_recipients_cons number rest :
  valid_recipients (number :: rest)
  = match normalize_phone (VStr number) with
    | Some normalized => normalized :: valid_recipients rest
    | None => valid_recipients rest
    end.
Proof. reflexivity. Qed.

Lemma invalid_recipients_cons number rest :
  invalid_recipients (number :: rest)
  = match normalize_phone (VStr number) with
    | Some _ => invalid_recipients rest
    | None => number :: invalid_recipients rest
    end.
Proof.
  unfold invalid_recipients. cbn [List.filter].
  destruct (normalize_phone (VStr number)) eqn:E.
  - by rewrite bool_decide_eq_true_2 by eauto.
  - by rewrite bool_decide_eq_false_2 by (by intros [? ?]).
Qed.

Lemma typed_app tr1 tr2 : typed (tr1 ++ tr2) = typed tr1 ++ typed tr2.
Proof. apply omap_app. Qed.

Lemma warnings_app tr1 tr2 : warnings (tr1 ++ tr2) = warnings tr1 ++ warnings tr2.
Proof. apply omap_app. Qed.

Lemma attempt_typed wait number message ok events :
  attempt wait number message ok events ->
  (typed events = [] \/ typed events = [message])
  /\ (ok = true -> typed events = [message]).
Proof.
  intros [|passed c rest exc Hp]; [by split; [right|]|].
  split; [|done]. unfold protocol in Hp.
  destruct passed as [|c1 [|c2 [|c3 [|c4 tl]]]]; simpl in Hp; simplify_eq;
    try (by left); try (by right).
  by destruct tl.
Qed.

Lemma attempt_warnings wait number message ok events :
  attempt wait number message ok events -> warnings events = [].
Proof.
  intros [|passed c rest exc Hp]; [done|].
  rewrite warnings_app. simpl. rewrite app_nil_r.
  clear Hp. by induction passed.
Qed.

Lemma dismissal_typed alert : dismissal alert -> typed alert = [].
Proof. by intros []. Qed.

Lemma dismissal_warnings alert : dismissal alert -> warnings alert = [].
Proof. by intros []. Qed.

Section ReportDispatch.

Context {W : Type} (oracle : forall c : call, W -> result (answer c) * W).

(** A loop over two lists one after the other is the loop over the first
    followed by the loop over the second. *)
Lemma for_each_app {A} (xs ys : list A) (body : A -> M W unit) (s : state W) :
  for_each (xs ++ ys) body s = (for_each xs body;; for_each ys body) s.
Proof.
  revert s. induction xs as [|x xs IH]; intros s; [done|].
  cbn [for_each app]. unfold mbind, M_bind in *.
  destruct (body x s) as [[[]|e] s1]; [apply IH|done].
Qed.

Lemma send_report_invalid b wait number rest message delay (s : state W) :
  normalize_phone (VStr number) = None ->
  send_report oracle b wait (number :: rest) message delay s
  = send_report oracle b wait rest message delay
      (State (world s)
         (trace s ++ [Logged WARNING "Número de relatório inválido: %s" [number]])
         (store s)).
Proof.
  intros Hn. unfold send_report. cbn [for_each]. rewrite Hn. reflexivity.
Qed.

(** An invalid recipient, wherever it stands in the list, stands for one
    warning between the dispatch to the recipients before it and the dispatch
    to those after it. *)
Lemma send_report_skips b wait before number after message delay (s : state W) :
  normalize_phone (VStr number) = None ->
  send_report oracle b wait (before ++ number :: after) message delay s
  = (send_report oracle b wait before message delay;;
     logging WARNING "Número de relatório inválido: %s" [number];;
     send_report oracle b wait after message delay) s.
Proof.
  intros Hn. unfold send_report at 1. rewrite for_each_app.
  fold (send_report oracle b wait before message delay).
  unfold mbind, M_bind.
  destruct (send_report oracle b wait before message delay s) as [[[]|e] s1]; [|done].
  cbn [for_each]. rewrite Hn. reflexivity.
Qed.

(** When [send_report] returns, it has made one [browser.get] per valid
    recipient and logged one warning per invalid one, in order. *)
Lemma send_report_returns b wait message delay numbers : forall (s s' : state W),
  send_report oracle b wait numbers message delay s = (Ret tt, s') ->
  exists δ, trace s' = trace s ++ δ
    /\ gets δ = map send_url (valid_recipients numbers)
    /\ warnings δ = map (fun number => [number]) (invalid_recipients numbers).
Proof.
  induction numbers as [|number rest IH]; intros s s' Hrun.
  - exists []. injection Hrun as <-. by rewrite app_nil_r.
  - destruct (normalize_phone (VStr number)) as [normalized|] eqn:Hn.
    + destruct (send_message_run oracle b wait normalized message delay s)
        as (ok & events & Hev & Hsend).
      unfold send_report in Hrun. cbn [for_each] in Hrun. rewrite Hn in Hrun.
      destruct (sleep_result delay) as [q|e].
      * destruct Hsend as (alert & Hal & s1 & Hsend & _ & Htr).
        rewrite (bind_ret_run _ _ s tt s1) in Hrun
          by (by rewrite (bind_ret_run _ _ s ok s1 Hsend)).
        destruct (IH s1 s' Hrun) as (δ & Htr' & Hg & Hw).
        exists (events ++ Slept q :: alert ++ δ). split.
        { rewrite Htr', Htr. by rewrite <- !app_assoc. }
        split.
        -- rewrite valid_recipients_cons, Hn.
           rewrite gets_app. simpl. rewrite gets_app, Hg.
           by rewrite (attempt_gets _ _ _ _ _ Hev), (dismissal_gets _ Hal).
        -- rewrite invalid_recipients_cons, Hn.
           rewrite warnings_app. cbn [warnings omap list_omap].
           rewrite warnings_app, Hw.
           by rewrite (attempt_warnings _ _ _ _ _ Hev), (dismissal_warnings _ Hal).
      * destruct Hsend as (s1 & Hsend & _).
        erewrite (bind_raise_run _ _ s _ s1) in Hrun; [done|].
        by rewrite (bind_raise_run _ _ s _ s1 Hsend).
    + rewrite send_report_invalid in Hrun by done.
      destruct (IH _ _ Hrun) as (δ & Htr & Hg & Hw). simpl in Htr.
      exists (Logged WARNING "Número de relatório inválido: %s" [number] :: δ).
      split; [by rewrite Htr, <- app_assoc|].
      split; [by rewrite valid_recipients_cons, Hn|].
      rewrite invalid_recipients_cons, Hn. simpl. by rewrite Hw.
Qed.

End ReportDispatch.

(** C7. A report recipient that does not normalize to a number, wherever it
    stands among the recipients, costs one warning in the log and nothing
    else: [send_report] is the dispatch to the recipients before it, the
    warning, and the dispatch to the recipients after it.  Whenever
    [send_report] returns, it has called [browser.get] for the valid
    recipients only, and logged one warning per invalid recipient, naming it.
    Whatever the recipients and whatever happens to the sends, [send_report]
    leaves every list of the store, hence the two lists of the statistics, as
    it found them. *)
Theorem send_report_skips_invalid_and_keeps_stats {W}
    (oracle : forall c : call, W -> result (answer c) * W)
    (b : browser) (wait : waiter) (before : list string) (number : string)
    (after : list string) (message : string) (delay : pyfloat) (s : state W) :
  normalize_phone (VStr number) = None ->
  send_report oracle b wait (before ++ number :: after) message delay s
  = (send_report oracle b wait before message delay;;
     logging WARNING "Número de relatório inválido: %s" [number];;
     send_report oracle b wait after message delay) s
  /\ (forall numbers s',
        send_report oracle b wait numbers message delay s = (Ret tt, s') ->
        gets (since s s') = map send_url (valid_recipients numbers)
        /\ warnings (since s s') = map (fun number => [number]) (invalid_recipients numbers))
  /\ (forall numbers (stats : RunStats),
        let s' := (send_report oracle b wait numbers message delay s).2 in
        store s' = store s
        /\ content (store s') (successful_numbers stats)
           = content (store s) (successful_numbers stats)
        /\ content (store s') (failed_numbers stats)
           = content (store s) (failed_numbers stats)).
Proof.
  intros Hn. split; [by apply send_report_skips|]. split.
  - intros numbers s' (δ & Htr & Hg & Hw)%send_report_returns.
    by rewrite (since_app _ _ _ Htr).
  - intros numbers stats s'.
    assert (Hs : store s' = store s)
      by apply (send_report_store oracle b wait numbers message delay s).
    by rewrite Hs.
Qed.

Lemma send_report_skips_invalid_and_keeps_stats_witness :
  send_report (scripted "" [] never) {| chrome_arguments := [] |} {| timeout := 60 |}
    (["11969257920"] ++ "sem numero" :: ["11953075442"]) "resumo" 5 initial
  = (send_report (scripted "" [] never) {| chrome_arguments := [] |} {| timeout := 60 |}
       ["11969257920"] "resumo" 5;;
     logging WARNING "Número de relatório inválido: %s" ["sem numero"];;
     send_report (scripted "" [] never) {| chrome_arguments := [] |} {| timeout := 60 |}
       ["11953075442"] "resumo" 5) initial.
Proof.
  refine (proj1 (send_report_skips_invalid_and_keeps_stats (scripted "" [] never)
                   {| chrome_arguments := [] |} {| timeout := 60 |} ["11969257920"]
                   "sem numero" ["11953075442"] "resumo" 5 initial _)).
  vm_compute. reflexivity.
Defined.

(** ** Properties of a whole run *)

Section WholeRun.

Context {W : Type} (oracle : forall c : call, W -> result (answer c) * W)
  (clock : W -> Q * W).

Lemma bind_inv {A B} (m : M W A) (k : A -> M W B) s r s' :
  (m ≫= k) s = (r, s') ->
  (exists a s1, m s = (Ret a, s1) /\ k a s1 = (r, s'))
  \/ (exists e, m s = (Raise e, s') /\ r = Raise e).
Proof.
  unfold mbind, M_bind. destruct (m s) as [[a|e] s1]; intros H.
  - left. eauto.
  - right. exists e. by simplify_eq.
Qed.

Lemma preserves_weaken {A} (P Q : event -> bool) (m : M W A) :
  (forall ev, P ev = true -> Q ev = true) ->
  preserves (trace_by P) m -> preserves (trace_by Q) m.
Proof. intros HPQ Hm s. eapply trace_by_weaken; [exact HPQ|apply Hm]. Qed.

Lemma sending_working ev : sending ev = true -> working ev = true.
Proof. unfold working. by intros ->. Qed.

Lemma working_no_quit ev : working ev = true -> no_quit ev = true.
Proof. by destruct ev as [[] ?| | | |]. Qed.

Lemma quiet_unready ev : quiet ev = true -> unready ev = true.
Proof. by destruct ev as [[] []| | | |]. Qed.

Lemma unready_no_quit ev : unready ev = true -> no_quit ev = true.
Proof. unfold unready. by intros [? _]%andb_true_iff. Qed.

Lemma unready_not_created tr : forallb unready tr = true -> session_created tr = false.
Proof.
  induction tr as [|ev tr IH]; simpl; [done|].
  intros [Hev Htr]%andb_true_iff. rewrite (IH Htr), orb_false_r.
  unfold unready in Hev. apply andb_true_iff in Hev as [_ Hev].
  by destruct (is_ready ev).
Qed.

Lemma no_quit_quits tr : forallb no_quit tr = true -> quits tr = 0.
Proof.
  unfold quits, no_quit. induction tr as [|ev tr IH]; simpl; [done|].
  intros [Hev Htr]%andb_true_iff. destruct (is_quit ev); [done|]. by apply IH.
Qed.

Lemma configure_logging_quiet lvl :
  preserves (W := W) (trace_by quiet) (configure_logging lvl).
Proof. unfold configure_logging. frame. Qed.

Lemma load_message_quiet message_file :
  preserves (trace_by quiet) (load_message oracle message_file).
Proof. unfold load_message. frame. Qed.

Lemma load_numbers_quiet workbook_path sheet_name column limit :
  preserves (trace_by quiet) (load_numbers oracle workbook_path sheet_name column limit).
Proof. unfold load_numbers. frame. Qed.

Lemma session_working args b wait numbers message start :
  preserves (trace_by working) (session oracle clock args b wait numbers message start).
Proof.
  pose proof (fun b w n m d => preserves_weaken _ _ _ sending_working
                (process_numbers_trace oracle b w n m d)).
  pose proof (fun b w n m d => preserves_weaken _ _ _ sending_working
                (send_report_trace oracle b w n m d)).
  unfold session. frame.
Qed.

(** [build_browser] returns after a successful [maximize_window], or raises
    and leaves no session. *)
Lemma build_browser_run max_wait user_data_dir headless (s : state W) r s' :
  build_browser oracle max_wait user_data_dir headless s = (r, s') ->
  (exists bw arguments, r = Ret bw
     /\ trace s' = trace s ++ [Called (Chrome arguments) None;
                               Called MaximizeWindow None])
  \/ (exists e, r = Raise e /\ trace_by unready s s').
Proof.
  unfold build_browser, external, mbind, M_bind, mret, M_ret.
  destruct s as [w tr σ]. simpl.
  match goal with |- context [oracle ?c w] => destruct (oracle c w) as [[[]|e] w1] end;
    simpl.
  - destruct (oracle MaximizeWindow w1) as [[[]|e] w2]; simpl; intros; simplify_eq.
    + left. eexists _, _. split; [done|]. simpl. by rewrite <- app_assoc.
    + right. exists e. split; [done|]. eexists [_; _]. simpl.
      split; [by rewrite <- app_assoc|done].
  - intros; simplify_eq. right. exists e. split; [done|]. by eexists [_].
Qed.

(** The trace tells whether [build_browser] returned. *)
Lemma build_browser_returns_iff max_wait user_data_dir headless (s : state W) r s' :
  build_browser oracle max_wait user_data_dir headless s = (r, s') ->
  (exists bw, r = Ret bw) <-> session_created (since s s') = true.
Proof.
  intros [(bw & arguments & -> & Htr)|(e & -> & (δ & Htr & Pδ))]%build_browser_run;
    rewrite (since_app _ _ _ Htr).
  - split; [done|]. intros _. by exists bw.
  - rewrite (unready_not_created _ Pδ). split; [by intros [bw ?]|done].
Qed.

(** When the [try] block of [main] completes, every valid report recipient
    has had its [browser.get]. *)
Lemma session_returns args b wait numbers message start (s s' : state W) :
  session oracle clock args b wait numbers message start s = (Ret tt, s') ->
  exists δ, trace s' = trace s ++ δ
    /\ forall n, n ∈ valid_recipients (report_numbers args) -> send_url n ∈ gets δ.
Proof.
  unfold session. intros Hrun.
  apply bind_inv in Hrun as [(stats & s1 & H1 & Hrun)|(e & _ & ?)]; [|done].
  pose proof (process_numbers_trace oracle b wait numbers message (delay args) s)
    as (δ1 & T1 & _). rewrite H1 in T1. simpl in T1.
  apply bind_inv in Hrun as [(now & s2 & H2 & Hrun)|(e & _ & ?)]; [|done].
  pose proof (time_time_trace clock (fun _ => true) (fun _ => eq_refl) s1)
    as (δ2 & T2 & _). rewrite H2 in T2. simpl in T2.
  apply bind_inv in Hrun as [(report & s3 & H3 & Hrun)|(e & _ & ?)]; [|done].
  unfold reading in H3. injection H3 as H3 <-.
  apply bind_inv in Hrun as [([] & s4 & H4 & Hrun)|(e & _ & ?)]; [|done].
  injection H4 as <-.
  apply bind_inv in Hrun as [([] & s5 & H5 & Hrun)|(e & _ & ?)]; [|done].
  apply send_report_returns in H5 as (δ5 & T5 & G5 & _). simpl in T5.
  pose proof (external_trace oracle (fun _ => true) (Print report)
                (fun _ => eq_refl) s5) as (δ6 & T6 & _).
  rewrite Hrun in T6. simpl in T6.
  eexists. split.
  { rewrite T6, T5, T2, T1. rewrite <- !app_assoc. reflexivity. }
  intros n Hn. rewrite !gets_app, G5, !elem_of_app.
  right. right. right. left. by apply list_elem_of_fmap_2.
Qed.

End WholeRun.

Section MainRun.

Context {W : Type} (oracle : forall c : call, W -> result (answer c) * W)
  (clock : W -> Q * W).

(** The two ways a run of [main] can go.  Either it ends before a browser
    session exists: it returns 1 or raises, and nothing was quit.  Or the
    session was created: [browser.quit()] is the last event of the run and
    the only call of it, and the run returns 0 after the report went to
    every valid recipient, or raises. *)
Lemma main_run argv (s : state W) r s' :
  main oracle clock argv s = (r, s') ->
  let args := parse_args argv in
  (trace_by unready s s'
   /\ ((r = Ret 1%Z /\ exists message s1 s2,
         load_message oracle (message_file args)
           (configure_logging (log_level args) s).2 = (Ret message, s1)
         /\ load_numbers oracle (workbook args) (sheet args) (column args)
              (limit args) s1 = (Ret [], s2)
         /\ s' = State (world s2)
                  (trace s2 ++ [Logged WARNING
                     "Nenhum número válido encontrado na planilha." []])
                  (store s2))
       \/ exists e, r = Raise e))
  \/ (exists before q,
        trace s' = trace s ++ before ++ [Called BrowserQuit q]
        /\ forallb no_quit before = true
        /\ session_created before = true
        /\ ((r = Ret 0%Z /\ q = None
             /\ forall n, n ∈ valid_recipients (report_numbers (parse_args argv)) ->
                          send_url n ∈ gets before)
            \/ exists e, r = Raise e)).
Proof.
  intros Hrun. unfold main in Hrun. cbv zeta in *.
  set (args := parse_args argv) in *.
  apply bind_inv in Hrun as [([] & s0 & H0 & Hrun)|(e & H0 & _)]; [|done].
  pose proof (configure_logging_quiet (log_level args) s) as T0.
  rewrite H0 in T0. simpl in T0.
  apply bind_inv in Hrun as [(message & s1 & H1 & Hrun)|(e & H1 & ->)];
    pose proof (load_message_quiet oracle (message_file args) s0) as T1;
    rewrite H1 in T1; simpl in T1.
  2: { left. split; [|eauto].
       eapply trace_by_weaken; [apply quiet_unready|]. by etransitivity. }
  apply bind_inv in Hrun as [(numbers & s2 & H2 & Hrun)|(e & H2 & ->)];
    pose proof (load_numbers_quiet oracle (workbook args) (sheet args) (column args)
                  (limit args) s1) as T2;
    rewrite H2 in T2; simpl in T2.
  2: { left. split; [|eauto].
       eapply trace_by_weaken; [apply quiet_unready|].
       etransitivity; [exact T0|]. by etransitivity. }
  assert (Tpre : trace_by quiet s s2)
    by (etransitivity; [exact T0|]; by etransitivity).
  clear T0 T1 T2.
  destruct numbers as [|number numbers].
  { left. injection Hrun as <- <-. split.
    - eapply trace_by_weaken; [apply quiet_unready|].
      etransitivity; [exact Tpre|]. by eexists [_].
    - left. split; [done|]. exists message, s1, s2. by rewrite H0. }
  clear H0 H1 H2.
  apply bind_inv in Hrun as [([] & s3 & H3 & Hrun)|(e & H3 & _)]; [|done].
  injection H3 as <-.
  apply bind_inv in Hrun as [([b wait] & s4 & H4 & Hrun)|(e & H4 & ->)];
    apply build_browser_run in H4 as [(bw & arguments & Hbw & T4)|(e' & He & T4)];
    simplify_eq.
  2: { left. split; [|eauto].
       etransitivity; [eapply trace_by_weaken; [apply quiet_unready|exact Tpre]|].
       etransitivity; [|exact T4]. by eexists [_]. }
  simpl in T4.
  apply bind_inv in Hrun as [(start & s5 & H5 & Hrun)|(e & H5 & _)].
  2: { unfold time_time in H5. by destruct (clock (world s4)). }
  assert (T5 : trace s5 = trace s4 ++ [Clock start]).
  { unfold time_time in H5. destruct (clock (world s4)). by simplify_eq. }
  destruct Tpre as (δpre & Tpre & Ppre).
  set (body := session oracle clock args b wait (number :: numbers) message start).
  change (((try_finally body (external oracle BrowserQuit)) ≫= fun _ => mret 0%Z) s5
          = (r, s')) in Hrun.
  destruct (body s5) as [rb s6] eqn:Hbody.
  pose proof (session_working oracle clock args b wait (number :: numbers) message
                start s5) as (δ6 & T6 & P6).
  fold body in T6. rewrite Hbody in T6. simpl in T6.
  unfold mbind, M_bind, mret, M_ret, try_finally, external in Hrun.
  rewrite Hbody in Hrun.
  destruct (oracle BrowserQuit (world s6)) as [rq w7].
  right.
  exists (δpre ++ [Logged INFO "Total de números únicos a enviar: %s"
                     [Py.str_of_nat (length (number :: numbers))];
                   Called (Chrome arguments) None; Called MaximizeWindow None;
                   Clock start] ++ δ6), (raised rq).
  assert (Htrace : trace s6 ++ [Called BrowserQuit (raised rq)]
                   = trace s ++ (δpre ++ [Logged INFO "Total de números únicos a enviar: %s"
                       [Py.str_of_nat (length (number :: numbers))];
                     Called (Chrome arguments) None; Called MaximizeWindow None;
                     Clock start] ++ δ6) ++ [Called BrowserQuit (raised rq)]).
  { rewrite T6, T5, T4. simpl. rewrite Tpre. by rewrite <- !app_assoc. }
  assert (Hnoquit : forallb no_quit
            (δpre ++ [Logged INFO "Total de números únicos a enviar: %s"
                        [Py.str_of_nat (length (number :: numbers))];
                      Called (Chrome arguments) None; Called MaximizeWindow None;
                      Clock start] ++ δ6) = true).
  { rewrite !forallb_app. simpl.
    rewrite (proj2 (forallb_forall _ _)), (proj2 (forallb_forall _ _)); [done| |].
    - intros ev Hev. apply working_no_quit. by eapply (proj1 (forallb_forall _ _)).
    - intros ev Hev. apply unready_no_quit, quiet_unready.
      by eapply (proj1 (forallb_forall _ _)). }
  assert (Hcreated : session_created
            (δpre ++ [Logged INFO "Total de números únicos a enviar: %s"
                        [Py.str_of_nat (length (number :: numbers))];
                      Called (Chrome arguments) None; Called MaximizeWindow None;
                      Clock start] ++ δ6) = true).
  { unfold session_created. rewrite !existsb_app. simpl. by rewrite !orb_true_r. }
  destruct rq as [[]|eq]; destruct rb as [[]|eb]; simpl in Hrun; simplify_eq;
    (split; [exact Htrace|]); (split; [exact Hnoquit|]); (split; [exact Hcreated|]);
    try (right; eauto; fail).
  left. split; [done|]. split; [done|].
  intros n Hn.
  apply session_returns in Hbody as (δ & T & G).
  rewrite T6 in T. apply app_inv_head in T. subst δ.
  rewrite !gets_app, !elem_of_app. right. right. by apply G.
Qed.

End MainRun.

Lemma quits_app tr1 tr2 : quits (tr1 ++ tr2) = quits tr1 + quits tr2.
Proof. unfold quits. by rewrite List.filter_app, length_app. Qed.

(** C2. In every run of [main] in which [build_browser] has returned a
    session, [browser.quit()] is called exactly once, as the last event of the
    run, whether [main] returns or an exception escapes from the sends, from
    the report dispatch or from the printing of the report. *)
Theorem browser_quit_exactly_once {W} (oracle : forall c : call, W -> result (answer c) * W)
    (clock : W -> Q * W) (argv : list arg) (s : state W) (r : result Z) (s' : state W) :
  main oracle clock argv s = (r, s') ->
  session_created (since s s') = true ->
  exists before q,
    since s s' = before ++ [Called BrowserQuit q]
    /\ quits before = 0
    /\ quits (since s s') = 1.
Proof.
  intros Hrun Hcreated.
  destruct (main_run oracle clock argv s r s' Hrun)
    as [[(δ & Hδ & Pδ) _]|(before & q & Htr & Hnq & _)].
  - rewrite (since_app _ _ _ Hδ), (unready_not_created _ Pδ) in Hcreated. done.
  - exists before, q. rewrite (since_app _ _ _ Htr), quits_app.
    rewrite (no_quit_quits _ Hnq). done.
Qed.

Lemma browser_quit_exactly_once_witness :
  exists before q,
    since initial
      (main (scripted "" [VStr "11999999999"] never) ticking [opt_delay (-1)] initial).2
    = before ++ [Called BrowserQuit q]
    /\ quits before = 0
    /\ quits (since initial
                (main (scripted "" [VStr "11999999999"] never) ticking
                   [opt_delay (-1)] initial).2) = 1.
Proof.
  apply (browser_quit_exactly_once (scripted "" [VStr "11999999999"] never) ticking
           [opt_delay (-1)] initial
           (main (scripted "" [VStr "11999999999"] never) ticking
              [opt_delay (-1)] initial).1).
  - apply surjective_pairing.
  - vm_compute. reflexivity.
Defined.

(** X16. In a run of [main] in which [build_browser] has not returned, because
    the run ended before it or because it raised, [browser.quit()] is never
    called. *)
Lemma no_session_no_quit {W} (oracle : forall c : call, W -> result (answer c) * W)
    (clock : W -> Q * W) argv (s : state W) r s' :
  main oracle clock argv s = (r, s') ->
  session_created (since s s') = false ->
  quits (since s s') = 0.
Proof.
  intros Hrun Hnone.
  destruct (main_run oracle clock argv s r s' Hrun)
    as [[(δ & Hδ & Pδ) _]|(before & q & Htr & _ & Hc & _)].
  - rewrite (since_app _ _ _ Hδ). apply no_quit_quits.
    rewrite forallb_forall in *. intros ev Hev. by apply unready_no_quit, Pδ.
  - rewrite (since_app _ _ _ Htr) in Hnone. unfold session_created in *.
    rewrite existsb_app, Hc in Hnone. done.
Qed.

(** C5. Once the message is loaded and [load_numbers] has returned: with no
    number, [main] logs a warning and returns 1, and the run shows no browser
    call, no sleep, no reading of the clock and no printing, so no session was
    created and no report was built or sent; with at least one number, a run
    that completes returns 0, after a session was created. *)
Theorem main_exit_code {W} (oracle : forall c : call, W -> result (answer c) * W)
    (clock : W -> Q * W) (argv : list arg) (s : state W) (message : string)
    (s1 : state W) (numbers : list string) (s2 : state W) :
  let args := parse_args argv in
  load_message oracle (message_file args) (configure_logging (log_level args) s).2
  = (Ret message, s1) ->
  load_numbers oracle (workbook args) (sheet args) (column args) (limit args) s1
  = (Ret numbers, s2) ->
  (numbers = [] ->
     main oracle clock argv s
     = (Ret 1%Z,
        State (world s2)
          (trace s2 ++ [Logged WARNING "Nenhum número válido encontrado na planilha." []])
          (store s2))
     /\ forallb quiet
          (since s s2 ++ [Logged WARNING "Nenhum número válido encontrado na planilha." []])
        = true)
  /\ (numbers <> [] ->
      forall c s', main oracle clock argv s = (Ret c, s') ->
        c = 0%Z /\ session_created (since s s') = true).
Proof.
  intros args H1 H2. split.
  - intros ->. split.
    + unfold main. fold args.
      rewrite (bind_ret_run _ _ s tt (configure_logging (log_level args) s).2)
        by reflexivity.
      rewrite (bind_ret_run _ _ _ message s1 H1).
      rewrite (bind_ret_run _ _ _ [] s2 H2). reflexivity.
    + pose proof (configure_logging_quiet (log_level args) s) as T0.
      pose proof (load_message_quiet oracle (message_file args)
                    (configure_logging (log_level args) s).2) as T1.
      pose proof (load_numbers_quiet oracle (workbook args) (sheet args)
                    (column args) (limit args) s1) as T2.
      rewrite H1 in T1. rewrite H2 in T2. simpl in T1, T2.
      assert (T : trace_by quiet s s2)
        by (etransitivity; [exact T0|]; by etransitivity).
      destruct T as (δ & Hδ & Pδ).
      rewrite (since_app _ _ _ Hδ), forallb_app, Pδ. reflexivity.
  - intros Hne c s' Hrun.
    destruct (main_run oracle clock argv s (Ret c) s' Hrun)
      as [[_ [[_ (m & t1 & t2 & L1 & L2 & _)]|[e He]]]
         |(before & q & Htr & _ & Hc & [(Hr & _)|[e He]])];
      try discriminate.
    + fold args in L1, L2. rewrite H1 in L1. simplify_eq.
      rewrite H2 in L2. by simplify_eq.
    + split; [congruence|].
      rewrite (since_app _ _ _ Htr). unfold session_created in *.
      by rewrite existsb_app, Hc.
Qed.

Lemma main_exit_code_witness :
  main (scripted "" [VStr "Telefones"; VNone; VStr "sem numero"] never) ticking []
    initial
  = (Ret 1%Z,
     State 4
       [Configured INFO; Called (LoadWorkbook "Pasta3.xlsx") None;
        Called (GetSheet "Planilha78") None; Called (GetColumn "A") None;
        Called WorkbookClose None;
        Logged WARNING "Nenhum número válido encontrado na planilha." []]
       []).
Proof.
  exact (proj1 (proj1 (main_exit_code
                         (scripted "" [VStr "Telefones"; VNone; VStr "sem numero"] never)
                         ticking [] initial DEFAULT_MESSAGE _ [] _ eq_refl eq_refl)
                  eq_refl)).
Defined.

(** C10. The report recipients are the two default numbers followed by the
    numbers given with [--report-number], in the order given; and when a run
    returns 0, [browser.get] was called for each of the two default numbers. *)
Theorem report_numbers_keep_defaults {W}
    (oracle : forall c : call, W -> result (answer c) * W) (clock : W -> Q * W)
    (argv : list arg) (s : state W) :
  report_numbers (parse_args argv) = ["11969257920"; "11953075442"] ++ supplied argv
  /\ (forall s', main oracle clock argv s = (Ret 0%Z, s') ->
        send_url "11969257920" ∈ gets (since s s')
        /\ send_url "11953075442" ∈ gets (since s s')).
Proof.
  assert (Hrn : report_numbers (parse_args argv)
                = ["11969257920"; "11953075442"] ++ supplied argv)
    by apply fold_apply_arg_report_numbers.
  split; [exact Hrn|].
  intros s' Hrun.
  destruct (main_run oracle clock argv s (Ret 0%Z) s' Hrun)
    as [[_ [[? _]|[e He]]]|(before & q & Htr & _ & _ & [(_ & _ & Hg)|[e He]])];
    try discriminate.
  rewrite Hrn in Hg. rewrite (since_app _ _ _ Htr), gets_app.
  split; apply elem_of_app; left; apply Hg.
  - by left.
  - right. by left.
Qed.

Lemma report_numbers_keep_defaults_witness :
  report_numbers (parse_args [opt_report_number "11900000000"; opt_headless])
  = ["11969257920"; "11953075442"; "11900000000"]
  /\ send_url "11969257920"
     ∈ gets (since initial
               (main (scripted "" [VStr "11999999999"] never) ticking
                  [opt_report_number "11900000000"; opt_headless] initial).2).
Proof.
  pose proof (report_numbers_keep_defaults (scripted "" [VStr "11999999999"] never)
                ticking [opt_report_number "11900000000"; opt_headless] initial)
    as [Hlist Hsent].
  split; [exact Hlist|].
  refine (proj1 (Hsent _ _)). vm_compute. reflexivity.
Defined.

(** ** The program on concrete inputs *)

Example normalize_formatted :
  normalize_phone (VStr "(11) 99999-9999") = Some "11999999999".
Proof. vm_compute. reflexivity. Qed.

(** Digits of other scripts are digits too, and are kept as they are. *)
Example normalize_arabic_indic :
  normalize_phone (VStr "tel. ١١ ٩٩٩٩") = Some "١١٩٩٩٩".
Proof. vm_compute. reflexivity. Qed.

(** The no-break space is whitespace for [strip]. *)
Example strip_no_break_space :
  Py.strip (String (ascii_of_nat 194) (String (ascii_of_nat 160) "oi")) = "oi".
Proof. vm_compute. reflexivity. Qed.

Example normalize_int : normalize_phone (VInt 11999999999) = Some "11999999999".
Proof. vm_compute. reflexivity. Qed.

Example normalize_empty :
  normalize_phone (VStr "") = None /\ normalize_phone VNone = None.
Proof. split; reflexivity. Qed.

Example header_skipped : is_header (VStr " Telefones ") = true.
Proof. vm_compute. reflexivity. Qed.

Example negative_limit_keeps_one :
  load_numbers_from [VStr "11 1"; VStr "11 2"] (Some (-3)%Z) = ["111"].
Proof. vm_compute. reflexivity. Qed.

Example format_duration_wraps : format_duration (86400 + 3661) = Ret "01:01:01".
Proof. vm_compute. reflexivity. Qed.

(** A hundred thousand billion years do not fit a date. *)
Example format_duration_out_of_range :
  format_duration 100000000000000000
  = Raise (Exn "OSError" "[Errno 75] Value too large for defined data type").
Proof. vm_compute. reflexivity. Qed.

(** Two numbers, the second send times out on the compose element. *)
Example second_send_times_out :
  let run := process_numbers (scripted "" [] (fun k => k =? 8))
               {| chrome_arguments := [] |} {| timeout := 60 |}
               ["11111111111"; "22222222222"] "oi" 5 initial in
  let stats := {| successful_numbers := 0; failed_numbers := 1 |} in
  run.1 = Ret stats
  /\ store run.2 = [["11111111111"]; ["22222222222"]]
  /\ total (store run.2) stats = 2
  /\ build_report (store run.2) stats 30
     = Ret ("Total de números: 2" +:+ nl +:+
            "Números enviados com sucesso: 1" +:+ nl +:+
            "Números enviados com erro: 1" +:+ nl +:+
            "Números com erro: ['22222222222']" +:+ nl +:+
            "Tempo de execução: 00:00:30" +:+ nl +:+
            "Tempo médio por número: 00:00:15" +:+ nl).
Proof. repeat split; vm_compute; reflexivity. Qed.

(** A run in a world where nothing fails returns 0. *)
Example main_returns_zero :
  (main (scripted "" [VStr "Telefones"; VStr "(11) 99999-9999"] never) ticking []
     initial).1 = Ret 0%Z.
Proof. vm_compute. reflexivity. Qed.

(** When [maximize_window] raises, [build_browser] raises before the [try]
    block of [main] is entered: Chrome was started and nothing quits it. *)
Example maximize_failure_quits_nothing :
  let run := main (scripted "" [VStr "11999999999"] (fun k => k =? 5)) ticking []
               initial in
  run.1 = Raise (Exn "WebDriverException" "scripted failure")
  /\ Called (Chrome []) None ∈ trace run.2
  /\ quits (trace run.2) = 0.
Proof.
  split; [vm_compute; reflexivity|]. split; [|vm_compute; reflexivity].
  vm_compute. set_solver.
Qed.

(** ** Further properties of the number source *)

(** What [normalize_phone] returns. *)
Lemma normalize_phone_returns (value : cell_value) :
  (normalize_phone value = None
   <-> value = VNone \/ has_digit (str_of_value value) = false)
  /\ (forall digits, normalize_phone value = Some digits ->
        digits = Py.filter Py.isdigit (str_of_value value)
        /\ Py.chars digits = List.filter Py.isdigit (Py.chars (str_of_value value))
        /\ digits <> EmptyString
        /\ only_digits digits = true
        /\ normalize_phone (VStr digits) = Some digits).
Proof.
  assert (Hsome : forall v, v <> VNone ->
            normalize_phone v
            = if Py.truthy (Py.filter Py.isdigit (str_of_value v))
              then Some (Py.filter Py.isdigit (str_of_value v)) else None)
    by (by intros []).
  assert (Hcase : value = VNone \/ value <> VNone)
    by (destruct value; [left|right..]; done).
  split.
  - destruct Hcase as [->|Hv]; [by split; [left|]|].
    rewrite (Hsome _ Hv), <- filter_empty_iff.
    destruct (Py.filter Py.isdigit (str_of_value value)); simpl; split;
      try done; [by right|by intros [?|?]].
  - intros digits Hd.
    destruct Hcase as [->|Hv]; [done|].
    rewrite (Hsome _ Hv) in Hd.
    destruct (Py.filter Py.isdigit (str_of_value value)) as [|c r] eqn:E; [done|].
    simpl in Hd. injection Hd as <-.
    split; [done|]. split; [rewrite <- E; apply chars_filter_digits|].
    split; [done|].
    split; [rewrite <- E; apply filter_only_digits|].
    rewrite Hsome by done. simpl str_of_value.
    rewrite filter_digits_id by (rewrite <- E; apply filter_only_digits). done.
Qed.

(** X1. [normalize_phone] keeps the digits of the text of a value, in order:
    the characters of the result are the characters of the text for which
    [str.isdigit] holds, digits of any script among them.  It returns [None]
    exactly for the value [None] and for a text without a digit; a number it
    returns is never empty, holds digits only, and is left as it is when
    normalized again. *)
Theorem normalize_phone_digits_only (value : cell_value) :
  (normalize_phone value = None
   <-> value = VNone \/ has_digit (str_of_value value) = false)
  /\ (forall digits, normalize_phone value = Some digits ->
        digits = Py.filter Py.isdigit (str_of_value value)
        /\ Py.chars digits = List.filter Py.isdigit (Py.chars (str_of_value value))
        /\ digits <> EmptyString
        /\ only_digits digits = true
        /\ normalize_phone (VStr digits) = Some digits).
Proof. apply normalize_phone_returns. Qed.

Lemma normalize_phone_digits_only_witness :
  "11999999999" = Py.filter Py.isdigit "(11) 99999-9999"
  /\ Py.chars "11999999999" = List.filter Py.isdigit (Py.chars "(11) 99999-9999")
  /\ "11999999999" <> EmptyString
  /\ only_digits "11999999999" = true
  /\ normalize_phone (VStr "11999999999") = Some "11999999999".
Proof.
  refine (proj2 (normalize_phone_digits_only (VStr "(11) 99999-9999"))
            "11999999999" _).
  vm_compute. reflexivity.
Defined.

Lemma header_has_no_digit value : is_header value = true -> normalize_phone value = None.
Proof.
  destruct value as [|s| |]; try done. unfold is_header.
  intros H%bool_decide_eq_true. unfold normalize_phone. simpl str_of_value.
  by rewrite <- filter_strip, (lowered_word_no_digit _ H).
Qed.

(** X2. The test for the header cell changes nothing: a cell that reads
    [telefones], in any case and with whitespace around it, holds no digit
    and would be dropped by [normalize_phone] anyway.  So the valid entries
    of a column are the normalized values of its cells. *)
Theorem header_test_is_redundant (cells : list cell_value) (value : cell_value) :
  (is_header value = true -> normalize_phone value = None)
  /\ entries cells = omap normalize_phone cells.
Proof.
  split; [apply header_has_no_digit|].
  induction cells as [|v rest IH]; [done|].
  change (entries (v :: rest))
    with (match (if is_header v then None else normalize_phone v) with
          | Some y => y :: entries rest
          | None => entries rest
          end).
  change (omap normalize_phone (v :: rest))
    with (match normalize_phone v with
          | Some y => y :: omap normalize_phone rest
          | None => omap normalize_phone rest
          end).
  rewrite IH.
  destruct (is_header v) eqn:E; [by rewrite (header_has_no_digit v E)|done].
Qed.

Lemma header_test_is_redundant_witness :
  normalize_phone (VStr "  TeleFones ") = None.
Proof.
  refine (proj1 (header_test_is_redundant [] (VStr "  TeleFones ")) _).
  vm_compute. reflexivity.
Defined.

Lemma read_column_prefix limit cells : forall numbers,
  read_column limit cells numbers `prefix_of` numbers ++ entries cells.
Proof.
  induction cells as [|v rest IH]; intros numbers; simpl.
  - by rewrite app_nil_r.
  - unfold entries. simpl. fold (entries rest).
    destruct (is_header v); [apply IH|].
    destruct (normalize_phone v) as [d|]; [|apply IH].
    rewrite (cons_middle d numbers (entries rest)), (app_assoc numbers [d]).
    destruct (limit_reached limit (numbers ++ [d])); [by apply prefix_app_r|apply IH].
Qed.

Lemma entries_normalized cells x :
  x ∈ entries cells -> x <> EmptyString /\ only_digits x = true.
Proof.
  unfold entries. rewrite list_elem_of_omap. intros (v & _ & Hv).
  destruct (is_header v); [done|].
  by destruct (proj2 (normalize_phone_returns v) x Hv) as (_ & _ & ? & ? & _).
Qed.

(** X3. Every number [load_numbers] returns is a non-empty string of digits,
    whatever the column holds and whatever the limit: text, empty cells and
    cells without a digit never reach the list, and a number is left as it is
    when normalized again. *)
Theorem load_numbers_yields_digit_strings {W}
    (oracle : forall c : call, W -> result (answer c) * W)
    (workbook_path sheet_name column : string) (limit : option Z) (s : state W)
    (unique : list string) (s' : state W) :
  load_numbers oracle workbook_path sheet_name column limit s = (Ret unique, s') ->
  forall number, number ∈ unique ->
    number <> EmptyString /\ only_digits number = true
    /\ normalize_phone (VStr number) = Some number.
Proof.
  intros (cells & _ & ->)%load_numbers_returns number Hin.
  unfold load_numbers_from in Hin. apply unique_loop_elem in Hin as [Hin _].
  assert (Hentry : number ∈ entries cells).
  { destruct (read_column_prefix limit cells []) as [k Hk]. simpl in Hk.
    rewrite Hk. apply elem_of_app. by left. }
  destruct (entries_normalized cells number Hentry) as [Hne Hd].
  split; [done|]. split; [done|].
  unfold normalize_phone. simpl str_of_value. rewrite (filter_digits_id _ Hd).
  by destruct number.
Qed.

Lemma load_numbers_yields_digit_strings_witness :
  "11999999999" <> EmptyString /\ only_digits "11999999999" = true
  /\ normalize_phone (VStr "11999999999") = Some "11999999999".
Proof.
  refine (load_numbers_yields_digit_strings
            (scripted "" [VStr "Telefones"; VStr "(11) 99999-9999"; VOther "1.5e3"] never)
            "Pasta3.xlsx" "Planilha78" "A" None initial
            ["11999999999"; "153"] _ _ "11999999999" _).
  - vm_compute. reflexivity.
  - vm_compute. set_solver.
Defined.



Lemma unique_loop_NoDup_id numbers : forall seen,
  NoDup numbers -> (forall x, x ∈ numbers -> x ∉ seen) ->
  unique_loop numbers seen [] = numbers.
Proof.
  induction numbers as [|x rest IH]; intros seen Hnd Hseen; simpl; [done|].
  apply NoDup_cons in Hnd as [Hx Hnd].
  destruct (decide (x ∉ seen)) as [_|Hn]; [|exfalso; apply Hn, Hseen; by left].
  rewrite unique_loop_acc. simpl. f_equal. apply IH; [done|].
  intros y Hy. specialize (Hseen y ltac:(by right)). set_solver.
Qed.

(** X5. The second loop of [load_numbers] leaves a list without duplicates as
    it is; running it on its own result therefore changes nothing. *)
Theorem dedup_fixes_duplicate_free_lists (numbers : list string) :
  (NoDup numbers -> unique_loop numbers ∅ [] = numbers)
  /\ unique_loop (unique_loop numbers ∅ []) ∅ [] = unique_loop numbers ∅ [].
Proof.
  assert (H : forall l : list string, NoDup l -> unique_loop l ∅ [] = l)
    by (intros l Hl; apply unique_loop_NoDup_id; [done|set_solver]).
  split; [apply H|apply H, unique_loop_NoDup].
Qed.

Lemma dedup_fixes_duplicate_free_lists_witness :
  unique_loop ["11988888888"; "11999999999"] ∅ [] = ["11988888888"; "11999999999"].
Proof.
  apply (proj1 (dedup_fixes_duplicate_free_lists ["11988888888"; "11999999999"])).
  repeat (constructor; [set_solver|]). constructor.
Defined.

(** ** Further properties of the calls on the workbook and the browser *)

Section FurtherCalls.

Context {W : Type} (oracle : forall c : call, W -> result (answer c) * W).

Ltac oracle_case :=
  match goal with
  | |- context [oracle ?c ?w] =>
      destruct (oracle c w) as [[?|?] ?]; cbv beta iota zeta
  end.

Lemma load_numbers_run workbook_path sheet_name column limit (s : state W) :
  exists s', store s' = store s /\
    ((exists unique,
        load_numbers oracle workbook_path sheet_name column limit s = (Ret unique, s')
        /\ trace s' = trace s
                      ++ succeeded (workbook_calls workbook_path sheet_name column))
     \/ (exists e passed c rest,
           load_numbers oracle workbook_path sheet_name column limit s = (Raise e, s')
           /\ workbook_calls workbook_path sheet_name column = passed ++ c :: rest
           /\ trace s' = trace s ++ succeeded passed ++ [Called c (Some e)])).
Proof.
  destruct s as [w0 tr st].
  cbv beta iota zeta delta [load_numbers external mbind M_bind mret M_ret world
    trace store raised].
  repeat oracle_case;
    (eexists; split; [|first
       [ left; eexists; split; [reflexivity|]; simpl; rewrite <- ?app_assoc; reflexivity
       | right; eexists _, [], _, _; split; [reflexivity|]; split; [reflexivity|];
         simpl; rewrite <- ?app_assoc; reflexivity
       | right; eexists _, [_], _, _; split; [reflexivity|]; split; [reflexivity|];
         simpl; rewrite <- ?app_assoc; reflexivity
       | right; eexists _, [_; _], _, _; split; [reflexivity|]; split; [reflexivity|];
         simpl; rewrite <- ?app_assoc; reflexivity
       | right; eexists _, [_; _; _], _, _; split; [reflexivity|]; split; [reflexivity|];
         simpl; rewrite <- ?app_assoc; reflexivity ]]); reflexivity.
Qed.

Lemma dismiss_alert_run b (s : state W) :
  exists alert s',
    dismiss_alert oracle b s = (Ret tt, s')
    /\ dismissal alert
    /\ trace s' = trace s ++ alert
    /\ store s' = store s.
Proof.
  destruct s as [w0 tr st].
  cbv beta iota zeta delta [dismiss_alert try_except logging record external mbind
    M_bind mret M_ret world trace store raised].
  repeat oracle_case.
  - eexists _, _. split; [reflexivity|]. split; [apply dismissal_accepted|].
    simpl. rewrite <- !app_assoc. done.
  - eexists _, _. split; [reflexivity|]. split; [apply dismissal_not_accepted|].
    simpl. rewrite <- !app_assoc. done.
  - eexists _, _. split; [reflexivity|]. split; [apply dismissal_no_alert|]. done.
Qed.

End FurtherCalls.

(** X6. [load_numbers] opens the workbook, takes the sheet, takes the column
    and closes the workbook, in this order.  The first of these calls that
    raises ends it with that exception: the calls after it are not made, so a
    workbook opened before a missing sheet or column is not closed.  The list
    is returned only after all four calls, and the store is never touched. *)
Theorem load_numbers_closes_only_after_reading {W}
    (oracle : forall c : call, W -> result (answer c) * W)
    (workbook_path sheet_name column : string) (limit : option Z) (s : state W)
    (r : result (list string)) (s' : state W) :
  load_numbers oracle workbook_path sheet_name column limit s = (r, s') ->
  store s' = store s
  /\ ((exists unique, r = Ret unique
         /\ since s s' = succeeded (workbook_calls workbook_path sheet_name column))
      \/ (exists e passed c rest, r = Raise e
            /\ workbook_calls workbook_path sheet_name column = passed ++ c :: rest
            /\ since s s' = succeeded passed ++ [Called c (Some e)])).
Proof.
  intros Hrun.
  destruct (load_numbers_run oracle workbook_path sheet_name column limit s)
    as (s1 & Hst & [(unique & Hr & Htr)|(e & passed & c & rest & Hr & Hc & Htr)]);
    rewrite Hrun in Hr; simplify_eq; (split; [done|]).
  - left. exists unique. split; [done|]. by apply since_app.
  - right. exists e, passed, c, rest. split; [done|]. split; [done|].
    by apply since_app.
Qed.

Lemma load_numbers_closes_only_after_reading_witness :
  exists e passed c rest,
    (load_numbers (scripted "" [] (fun k => k =? 1)) "Pasta3.xlsx" "Planilha78" "A"
       None initial).1 = Raise e
    /\ workbook_calls "Pasta3.xlsx" "Planilha78" "A" = passed ++ c :: rest
    /\ since initial
         (load_numbers (scripted "" [] (fun k => k =? 1)) "Pasta3.xlsx" "Planilha78"
            "A" None initial).2
       = succeeded passed ++ [Called c (Some e)].
Proof.
  destruct (load_numbers_closes_only_after_reading (scripted "" [] (fun k => k =? 1))
              "Pasta3.xlsx" "Planilha78" "A" None initial _ _ (surjective_pairing _))
    as [_ [(unique & Hr & _)|H]]; [discriminate Hr|exact H].
Defined.

(** X7. [dismiss_alert] never raises, whatever the browser does: with no
    alert, with an alert that cannot be accepted or with an alert accepted it
    returns, and it leaves the store as it was. *)
Theorem dismiss_alert_never_raises {W}
    (oracle : forall c : call, W -> result (answer c) * W) (b : browser) (s : state W) :
  exists alert s',
    dismiss_alert oracle b s = (Ret tt, s')
    /\ dismissal alert
    /\ trace s' = trace s ++ alert
    /\ store s' = store s.
Proof. apply dismiss_alert_run. Qed.

(** When [time.sleep] refuses the delay, [send_message] raises its exception
    after the attempt. *)
Lemma send_message_refused_delay_run {W}
    (oracle : forall c : call, W -> result (answer c) * W)
    (b : browser) (wait : waiter) (number message : string) (delay : pyfloat)
    (e : exn) (s : state W) :
  sleep_result delay = Raise e ->
  exists ok events s',
    send_message oracle b wait number message delay s = (Raise e, s')
    /\ attempt wait number message ok events
    /\ trace s' = trace s ++ events
    /\ store s' = store s.
Proof.
  intros Hd.
  destruct (send_message_run oracle b wait number message delay s)
    as (ok & events & Hev & Hrun).
  rewrite Hd in Hrun. destruct Hrun as (s' & Hrun & Hst & Htr).
  by exists ok, events, s'.
Qed.



(** ** Further properties of the sends *)

Lemma sending_no_quit tr : forallb sending tr = true -> quits tr = 0.
Proof.
  intros H. apply no_quit_quits. rewrite forallb_forall in *.
  intros ev Hev. specialize (H ev Hev). by destruct ev as [[] ?| | | |].
Qed.

(** X9. One [send_message] navigates exactly once, to the link of the number
    behind the country code 55, and types at most once, and then the message
    as given; when it returns [True] the message was typed.  Besides that it
    only waits, sleeps, looks for an alert and logs: it never quits the
    browser and never touches the store. *)
Theorem send_message_one_get_one_text {W}
    (oracle : forall c : call, W -> result (answer c) * W)
    (b : browser) (wait : waiter) (number message : string) (delay : pyfloat)
    (s : state W) (r : result bool) (s' : state W) :
  send_message oracle b wait number message delay s = (r, s') ->
  gets (since s s')
  = ["https://web.whatsapp.com/send/?phone=55" +:+ number +:+
     "&text&type=phone_number&app_absent=0"]
  /\ (typed (since s s') = [] \/ typed (since s s') = [message])
  /\ (r = Ret true -> typed (since s s') = [message])
  /\ forallb sending (since s s') = true
  /\ quits (since s s') = 0
  /\ store s' = store s.
Proof.
  intros Hrun.
  assert (Hsending : forallb sending (since s s') = true).
  { destruct (send_message_trace oracle b wait number message delay s) as (δ & Hδ & Pδ).
    rewrite Hrun in Hδ. simpl in Hδ. by rewrite (since_app _ _ _ Hδ). }
  destruct (send_message_run oracle b wait number message delay s)
    as (ok & events & Hev & Hcase).
  destruct (attempt_typed _ _ _ _ _ Hev) as [Hty Hok].
  pose proof (attempt_gets _ _ _ _ _ Hev) as Hg.
  destruct (sleep_result delay) as [q|e].
  - destruct Hcase as (alert & Hal & s1 & Hr & Hst & Htr).
    rewrite Hrun in Hr. simplify_eq. rewrite (since_app _ _ _ Htr) in *.
    rewrite gets_app, typed_app. simpl.
    rewrite (dismissal_gets _ Hal), (dismissal_typed _ Hal), !app_nil_r, Hg.
    split; [done|]. split; [done|]. split; [intros [= ->]; by apply Hok|].
    split; [done|]. split; [by apply sending_no_quit|done].
  - destruct Hcase as (s1 & Hr & Hst & Htr).
    rewrite Hrun in Hr. simplify_eq. rewrite (since_app _ _ _ Htr) in *.
    split; [done|]. split; [done|]. split; [done|].
    split; [done|]. split; [by apply sending_no_quit|done].
Qed.

Lemma send_message_one_get_one_text_witness :
  typed (since initial
           (send_message (scripted "" [] never) {| chrome_arguments := [] |}
              {| timeout := 60 |} "11999999999" "oi" 5 initial).2) = ["oi"].
Proof.
  refine (proj1 (proj2 (proj2 (send_message_one_get_one_text (scripted "" [] never)
            {| chrome_arguments := [] |} {| timeout := 60 |} "11999999999" "oi" 5
            initial (Ret true) _ _))) eq_refl).
  vm_compute. reflexivity.
Defined.

Section FurtherSends.

Context {W : Type} (oracle : forall c : call, W -> result (answer c) * W).

(** [process_numbers] from its two new lists on. *)
Lemma process_numbers_run b wait numbers message delay q (s : state W) :
  sleep_result delay = Ret q ->
  exists oks s' δ,
    process_numbers oracle b wait numbers message delay s
    = (Ret {| successful_numbers := length (store s);
              failed_numbers := S (length (store s)) |}, s')
    /\ length oks = length numbers
    /\ store s' = store s ++ [picked true numbers oks; picked false numbers oks]
    /\ trace s' = trace s ++ δ
    /\ gets δ = map send_url numbers.
Proof.
  intros Hd.
  set (s2 := State (world s) (trace s) (store s ++ [[]; []])).
  destruct (process_loop oracle b wait message delay q (store s) numbers Hd s2 [] []
              eq_refl) as (oks & s' & δ & Hloop & Hlen & Hst & Htr & Hg).
  exists oks, s', δ. split; [|done].
  unfold process_numbers, new_list.
  cbv beta iota zeta delta [mbind M_bind world trace store].
  destruct s as [w tr σ].
  replace (length (σ ++ [[]])) with (S (length σ))
    by (rewrite length_app; simpl; lia).
  rewrite <- app_assoc. simpl. unfold s2 in Hloop. simpl in Hloop.
  unfold mbind, M_bind in Hloop. by rewrite Hloop.
Qed.


End FurtherSends.



(** When [time.sleep] refuses the delay, [process_numbers] raises on the
    first number. *)
Lemma process_numbers_refused_delay_run {W}
    (oracle : forall c : call, W -> result (answer c) * W)
    (b : browser) (wait : waiter) (number : string) (rest : list string)
    (message : string) (delay : pyfloat) (e : exn) (s : state W) :
  sleep_result delay = Raise e ->
  exists s',
    process_numbers oracle b wait (number :: rest) message delay s = (Raise e, s')
    /\ gets (since s s') = [send_url number]
    /\ store s' = store s ++ [[]; []].
Proof.
  intros Hd.
  set (s2 := State (world s) (trace s) ((store s ++ [[]]) ++ [[]])).
  destruct (send_message_refused_delay_run oracle b wait number message delay e
              s2 Hd) as (ok & events & s' & Hrun & Hev & Htr & Hst).
  exists s'. split.
  - unfold process_numbers.
    rewrite (bind_ret_run _ _ s (length (store s))
               (State (world s) (trace s) (store s ++ [[]]))) by reflexivity.
    rewrite (bind_ret_run _ _ _ (length (store s ++ [[]])) s2) by reflexivity.
    apply bind_raise_run. cbn [for_each].
    apply bind_raise_run, bind_raise_run, Hrun.
  - split.
    + rewrite (since_app s s' events Htr). by eapply attempt_gets.
    + rewrite Hst. simpl. by rewrite <- app_assoc.
Qed.





(** ** Further properties of the report text *)

Lemma Qfloor_plus_day q : Qfloor (q + 86400) = (Qfloor q + 86400)%Z.
Proof.
  destruct q as [n d]. unfold Qfloor, Qplus. simpl.
  rewrite Pos.mul_1_r, Z.mul_1_r. apply Z.div_add. lia.
Qed.

(** X13. [format_duration] shows the whole seconds of a duration as a time of
    day: a duration of [h] hours, [m] minutes and [sec] seconds within one day
    reads [hh:mm:ss]; the fraction of a second is dropped; a full day more
    changes nothing as long as both durations can be printed, so the reading
    wraps at 24 hours; and it returns exactly for the durations that fit a
    date of the platform, and raises for the others. *)
Theorem format_duration_is_time_of_day (h m sec : Z) (q : Q) :
  (0 <= h < 24)%Z -> (0 <= m < 60)%Z -> (0 <= sec < 60)%Z ->
  format_duration (inject_Z (3600 * h + 60 * m + sec))
  = Ret (two_digits h +:+ ":" +:+ two_digits m +:+ ":" +:+ two_digits sec)
  /\ format_duration q = format_duration (inject_Z (Qfloor q))
  /\ (printable q -> printable (q + 86400) ->
      format_duration (q + 86400) = format_duration q)
  /\ ((exists text, format_duration q = Ret text) <-> printable q).
Proof.
  intros Hh Hm Hs. split; [|split; [|split]].
  - rewrite format_duration_printable
      by (unfold printable, gmtime_MIN, strftime_MAX; rewrite Qfloor_Z; lia).
    unfold hms. rewrite Qfloor_Z.
    replace ((3600 * h + 60 * m + sec) mod 86400)%Z with (3600 * h + 60 * m + sec)%Z
      by (symmetry; apply Z.mod_small; lia).
    replace ((3600 * h + 60 * m + sec) / 3600)%Z with h
      by (apply Z.div_unique with (r := (60 * m + sec)%Z); lia).
    replace ((3600 * h + 60 * m + sec) mod 3600)%Z with (60 * m + sec)%Z
      by (apply Z.mod_unique with (q := h); lia).
    replace ((60 * m + sec) / 60)%Z with m
      by (apply Z.div_unique with (r := sec); lia).
    replace ((3600 * h + 60 * m + sec) mod 60)%Z with sec
      by (apply Z.mod_unique with (q := (60 * h + m)%Z); lia).
    reflexivity.
  - unfold format_duration, gmtime. by rewrite Qfloor_Z.
  - intros Hq Hq'. rewrite !format_duration_printable by done.
    unfold hms. rewrite Qfloor_plus_day.
    replace ((Qfloor q + 86400) mod 86400)%Z with (Qfloor q mod 86400)%Z; [done|].
    rewrite <- (Z.mod_add (Qfloor q) 1 86400) by lia. done.
  - split.
    + intros [text Htext]. by eapply format_duration_returns.
    + intros Hq. eexists. by apply format_duration_printable.
Qed.

Lemma format_duration_is_time_of_day_witness :
  format_duration (inject_Z (3600 * 1 + 60 * 2 + 3)) = Ret "01:02:03".
Proof.
  exact (proj1 (format_duration_is_time_of_day 1 2 3 0
                  ltac:(lia) ltac:(lia) ltac:(lia))).
Defined.

Lemma repr_char_digit c :
  Py.decimal c = true -> repr_char single_quote c = String c EmptyString.
Proof.
  destruct c as [[] [] [] [] [] [] [] []]; vm_compute; intros; congruence.
Qed.

Lemma digit_not_quote c : Py.decimal c = true -> bool_decide (single_quote = c) = false.
Proof.
  destruct c as [[] [] [] [] [] [] [] []]; vm_compute; intros; congruence.
Qed.

Lemma repr_chars_digits s :
  all_digits s = true ->
  repr_chars single_quote s = s /\ contains single_quote s = false.
Proof.
  induction s as [|c r IH]; simpl; [done|].
  intros [Hc Hr]%andb_true_iff. destruct (IH Hr) as [-> ->].
  by rewrite (repr_char_digit c Hc), (digit_not_quote c Hc).
Qed.

(** X14. In the report a failed number that is a string of the digits 0 to 9
    stands between single quotes, unescaped; the numbers are separated by a
    comma and a space and enclosed in square brackets. *)
Theorem report_quotes_digit_strings (numbers : list string) :
  Forall (fun number => all_digits number = true) numbers ->
  repr_list numbers
  = "[" +:+ join ", " (map (fun number => "'" +:+ number +:+ "'") numbers) +:+ "]".
Proof.
  intros Hall. unfold repr_list. do 3 f_equal.
  induction Hall as [|number rest Hn _ IH]; [done|].
  cbn [map]. rewrite IH. f_equal.
  unfold repr_str. destruct (repr_chars_digits number Hn) as [Hchars Hquote].
  rewrite Hquote. simpl. by rewrite Hchars.
Qed.

Lemma report_quotes_digit_strings_witness :
  repr_list ["11111111111"; "22222222222"] = "['11111111111', '22222222222']".
Proof.
  apply (report_quotes_digit_strings ["11111111111"; "22222222222"]).
  repeat constructor.
Defined.

(** ** Further properties of a whole run *)

Lemma no_session_no_quit_witness :
  quits (since initial
           (main (scripted "" [VStr "11999999999"] (fun k => k =? 4)) ticking []
              initial).2) = 0.
Proof.
  apply (no_session_no_quit (scripted "" [VStr "11999999999"] (fun k => k =? 4))
           ticking [] initial
           (main (scripted "" [VStr "11999999999"] (fun k => k =? 4)) ticking []
              initial).1).
  - apply surjective_pairing.
  - vm_compute. reflexivity.
Defined.

(** X15. [main] returns 0 or 1 and nothing else.  It returns 1 only in a run
    without a browser session, and 0 only in a run whose session was created
    and whose last event is a [browser.quit()] that did not raise. *)
Theorem main_returns_zero_or_one {W} (oracle : forall c : call, W -> result (answer c) * W)
    (clock : W -> Q * W) (argv : list arg) (s : state W) (c : Z) (s' : state W) :
  main oracle clock argv s = (Ret c, s') ->
  (c = 1%Z /\ session_created (since s s') = false /\ quits (since s s') = 0)
  \/ (c = 0%Z /\ session_created (since s s') = true
      /\ exists before, since s s' = before ++ [Called BrowserQuit None]
                        /\ quits before = 0).
Proof.
  intros Hrun.
  destruct (main_run oracle clock argv s (Ret c) s' Hrun)
    as [[(δ & Hδ & Pδ) [[Hc _]|[e He]]]
       |(before & q & Htr & Hnq & Hc & [(Hr & -> & _)|[e He]])];
    try discriminate.
  - left. rewrite (since_app _ _ _ Hδ). split; [congruence|].
    split; [by apply unready_not_created|].
    apply no_quit_quits. rewrite forallb_forall in *.
    intros ev Hev. by apply unready_no_quit, Pδ.
  - right. rewrite (since_app _ _ _ Htr). split; [congruence|]. split.
    + unfold session_created in *. by rewrite existsb_app, Hc.
    + exists before. split; [done|]. by apply no_quit_quits.
Qed.

Lemma main_returns_zero_or_one_witness :
  (0%Z = 1%Z
   /\ session_created
        (since initial
           (main (scripted "" [VStr "11999999999"] never) ticking [] initial).2) = false
   /\ quits (since initial
               (main (scripted "" [VStr "11999999999"] never) ticking [] initial).2) = 0)
  \/ (0%Z = 0%Z
      /\ session_created
           (since initial
              (main (scripted "" [VStr "11999999999"] never) ticking [] initial).2) = true
      /\ exists before,
           since initial
             (main (scripted "" [VStr "11999999999"] never) ticking [] initial).2
           = before ++ [Called BrowserQuit None]
           /\ quits before = 0).
Proof.
  apply (main_returns_zero_or_one (scripted "" [VStr "11999999999"] never) ticking []
           initial 0).
  vm_compute. reflexivity.
Defined.

(** X17. [main] reads the message file before it opens the workbook, and both
    before it starts the browser.  A message file that cannot be read ends
    the run with the exception of the reading, and the workbook is never
    opened; with no message file, a workbook that cannot be opened ends the
    run with its exception.  In both cases no browser call is made and no
    exit code is returned. *)
Theorem main_loading_errors_escape {W}
    (oracle : forall c : call, W -> result (answer c) * W) (clock : W -> Q * W)
    (argv : list arg) (s : state W) (e : exn) (w : W) :
  let args := parse_args argv in
  (forall path,
     message_file args = Some path ->
     oracle (ReadText path) (world s) = (Raise e, w) ->
     main oracle clock argv s
     = (Raise e,
        State w (trace s ++ [Configured (log_level args);
                             Called (ReadText path) (Some e)]) (store s)))
  /\ (message_file args = None ->
      oracle (LoadWorkbook (workbook args)) (world s) = (Raise e, w) ->
      main oracle clock argv s
      = (Raise e,
         State w (trace s ++ [Configured (log_level args);
                              Called (LoadWorkbook (workbook args)) (Some e)])
           (store s))).
Proof.
  intros args. split.
  - intros path Hmf Horacle. unfold main. fold args.
    rewrite (bind_ret_run _ _ s tt
               (State (world s) (trace s ++ [Configured (log_level args)]) (store s)))
      by reflexivity.
    apply bind_raise_run. rewrite Hmf. unfold load_message.
    apply bind_raise_run. unfold external. simpl. rewrite Horacle. simpl.
    by rewrite <- app_assoc.
  - intros Hmf Horacle. unfold main. fold args.
    rewrite (bind_ret_run _ _ s tt
               (State (world s) (trace s ++ [Configured (log_level args)]) (store s)))
      by reflexivity.
    rewrite Hmf.
    rewrite (bind_ret_run _ _ _ DEFAULT_MESSAGE
               (State (world s) (trace s ++ [Configured (log_level args)]) (store s)))
      by reflexivity.
    apply bind_raise_run. unfold load_numbers.
    apply bind_raise_run. unfold external. simpl. rewrite Horacle. simpl.
    by rewrite <- app_assoc.
Qed.

Lemma main_loading_errors_escape_witness :
  main (scripted "" [VStr "11999999999"] (fun k => k =? 0)) ticking
    [opt_message_file "mensagem.txt"] initial
  = (Raise (Exn "WebDriverException" "scripted failure"),
     State 1 [Configured INFO;
              Called (ReadText "mensagem.txt")
                (Some (Exn "WebDriverException" "scripted failure"))] []).
Proof.
  exact (proj1 (main_loading_errors_escape
                  (scripted "" [VStr "11999999999"] (fun k => k =? 0)) ticking
                  [opt_message_file "mensagem.txt"] initial
                  (Exn "WebDriverException" "scripted failure") 1)
           "mensagem.txt" eq_refl eq_refl).
Defined.

(** X18. [build_browser] starts Chrome and then maximizes the window.  When
    Chrome does not start, the window is not maximized; when the window cannot
    be maximized, Chrome has started and [build_browser] raises all the same,
    without quitting it.  The argument [--headless=new] is passed exactly in
    headless mode, the wait carries [max_wait], and the store is not
    touched. *)
Theorem build_browser_failure_modes {W}
    (oracle : forall c : call, W -> result (answer c) * W)
    (max_wait : Z) (user_data_dir : option string) (headless : bool) (s : state W)
    (r : result (browser * waiter)) (s' : state W) :
  build_browser oracle max_wait user_data_dir headless s = (r, s') ->
  exists arguments,
    ("--headless=new" ∈ arguments <-> headless = true)
    /\ store s' = store s
    /\ quits (since s s') = 0
    /\ ((r = Ret ({| chrome_arguments := arguments |}, {| timeout := max_wait |})
         /\ since s s' = [Called (Chrome arguments) None; Called MaximizeWindow None])
        \/ (exists e, r = Raise e
              /\ since s s' = [Called (Chrome arguments) (Some e)])
        \/ (exists e, r = Raise e
              /\ since s s' = [Called (Chrome arguments) None;
                               Called MaximizeWindow (Some e)])).
Proof.
  unfold build_browser, external, mbind, M_bind, mret, M_ret.
  set (arguments := _ ++ _). intros Hrun. exists arguments. split.
  { subst arguments. destruct headless, user_data_dir as [dir|]; simpl; split;
      try done; set_solver. }
  destruct s as [w tr σ]. simpl in Hrun. unfold since. simpl.
  destruct (oracle (Chrome arguments) w) as [[[]|e] w1]; simpl in Hrun.
  - destruct (oracle MaximizeWindow w1) as [[[]|e] w2]; simpl in Hrun; simplify_eq;
      simpl; rewrite <- app_assoc, drop_app_length; (split; [done|]);
      (split; [done|]).
    + by left.
    + right. right. by exists e.
  - simplify_eq. simpl. rewrite drop_app_length. split; [done|]. split; [done|].
    right. left. by exists e.
Qed.

Lemma build_browser_failure_modes_witness :
  exists arguments,
    ("--headless=new" ∈ arguments <-> true = true)
    /\ store (build_browser (scripted "" [] (fun k => k =? 1)) 60 (Some "perfil") true
                initial).2 = store initial
    /\ quits (since initial
                (build_browser (scripted "" [] (fun k => k =? 1)) 60 (Some "perfil")
                   true initial).2) = 0
    /\ (((build_browser (scripted "" [] (fun k => k =? 1)) 60 (Some "perfil") true
            initial).1
         = Ret ({| chrome_arguments := arguments |}, {| timeout := 60 |})
         /\ since initial
              (build_browser (scripted "" [] (fun k => k =? 1)) 60 (Some "perfil") true
                 initial).2
            = [Called (Chrome arguments) None; Called MaximizeWindow None])
        \/ (exists e,
              (build_browser (scripted "" [] (fun k => k =? 1)) 60 (Some "perfil") true
                 initial).1 = Raise e
              /\ since initial
                   (build_browser (scripted "" [] (fun k => k =? 1)) 60 (Some "perfil")
                      true initial).2
                 = [Called (Chrome arguments) (Some e)])
        \/ (exists e,
              (build_browser (scripted "" [] (fun k => k =? 1)) 60 (Some "perfil") true
                 initial).1 = Raise e
              /\ since initial
                   (build_browser (scripted "" [] (fun k => k =? 1)) 60 (Some "perfil")
                      true initial).2
                 = [Called (Chrome arguments) None; Called MaximizeWindow (Some e)])).
Proof.
  apply (build_browser_failure_modes (scripted "" [] (fun k => k =? 1)) 60
           (Some "perfil") true initial).
  apply surjective_pairing.
Defined.

Ltac frame_typing :=
  repeat match goal with
    | |- PreOrder _ => apply _
    | |- forall _, _ => intros ?
    | |- preserves _ (if ?b then _ else _) => destruct b
    | |- preserves _ (match ?x with _ => _ end) => destruct x
    | |- preserves _ (external ?o ?c) =>
        apply (external_trace o _ c); intros ?;
        first [reflexivity | apply bool_decide_eq_true_2; reflexivity]
    | |- preserves _ _ =>
        first [ solve [eauto with frames]
              | apply preserves_ret | apply preserves_raise
              | apply preserves_bind | apply preserves_try_except
              | apply preserves_try_finally | apply preserves_for_each ]
    end.

Section Completed.

Context {W : Type} (oracle : forall c : call, W -> result (answer c) * W)
  (clock : W -> Q * W).

Lemma send_message_typing b wait number message delay :
  preserves (trace_by (typing message))
    (send_message oracle b wait number message delay).
Proof.
  unfold send_message, dismiss_alert, wait_for_message_box. frame_typing.
Qed.

Lemma process_numbers_typing b wait numbers message delay :
  preserves (trace_by (typing message))
    (process_numbers oracle b wait numbers message delay).
Proof.
  pose proof send_message_typing. unfold process_numbers. frame_typing.
Qed.

Lemma send_report_typing b wait numbers message delay :
  preserves (trace_by (typing message))
    (send_report oracle b wait numbers message delay).
Proof.
  pose proof send_message_typing. unfold send_report. frame_typing.
Qed.

(** A [try] block of [main] that completes, step by step. *)
Lemma session_completed args b wait number rest message start (s s' : state W) :
  session oracle clock args b wait (number :: rest) message start s = (Ret tt, s') ->
  exists now σ stats report loop dispatch,
    trace s' = trace s ++ loop
               ++ [Clock now; Logged INFO ("Resumo:" +:+ nl +:+ "%s") [report]]
               ++ dispatch ++ [Called (Print report) None]
    /\ gets loop = map send_url (number :: rest)
    /\ forallb (typing message) loop = true
    /\ gets dispatch = map send_url (valid_recipients (report_numbers args))
    /\ forallb (typing report) dispatch = true
    /\ build_report σ stats (now - start) = Ret report
    /\ total σ stats = length (number :: rest)
    /\ content σ (successful_numbers stats) ++ content σ (failed_numbers stats)
       ≡ₚ number :: rest
    /\ exists q, sleep_result (delay args) = Ret q.
Proof.
  unfold session. intros Hrun.
  apply bind_inv in Hrun as [(stats & s1 & H1 & Hrun)|(e & _ & ?)]; [|done].
  destruct (sleep_result (delay args)) as [q|e] eqn:Hd.
  2: { destruct (process_numbers_refused_delay_run oracle b wait number rest message
                   (delay args) e s Hd) as (s0 & Hraise & _).
       congruence. }
  destruct (process_numbers_run oracle b wait (number :: rest) message (delay args) q s
              Hd) as (oks & s1' & loop & Hp & Hlen & Hst & Htr1 & Hg1).
  rewrite H1 in Hp. injection Hp as -> <-.
  pose proof (process_numbers_typing b wait (number :: rest) message (delay args) s)
    as (loop' & Htr1' & Ptyping).
  rewrite H1 in Htr1'. simpl in Htr1'. rewrite Htr1 in Htr1'.
  apply app_inv_head in Htr1'. subst loop'.
  apply bind_inv in Hrun as [(now & s2 & H2 & Hrun)|(e & _ & ?)]; [|done].
  assert (T2 : trace s2 = trace s1 ++ [Clock now] /\ store s2 = store s1).
  { unfold time_time in H2. destruct (clock (world s1)). by simplify_eq. }
  destruct T2 as [T2 S2].
  apply bind_inv in Hrun as [(report & s3 & H3 & Hrun)|(e & _ & ?)]; [|done].
  unfold reading in H3. injection H3 as H3 <-.
  apply bind_inv in Hrun as [([] & s4 & H4 & Hrun)|(e & _ & ?)]; [|done].
  injection H4 as <-.
  apply bind_inv in Hrun as [([] & s5 & H5 & Hrun)|(e & _ & ?)]; [|done].
  pose proof (send_report_typing b wait (report_numbers args) report (delay args)
                (State (world s2)
                   (trace s2 ++ [Logged INFO ("Resumo:" +:+ nl +:+ "%s") [report]])
                   (store s2))) as (dispatch & T5 & P5).
  rewrite H5 in T5. simpl in T5.
  pose proof H5 as H5'.
  apply send_report_returns in H5' as (dispatch' & T5' & G5 & _). simpl in T5'.
  rewrite T5 in T5'. apply app_inv_head in T5'. subst dispatch'.
  assert (T6 : trace s' = trace s5 ++ [Called (Print report) None]).
  { unfold external in Hrun. destruct (oracle (Print report) (world s5)) as [[[]|e] w6];
      by simplify_eq. }
  exists now, (store s2),
    {| successful_numbers := length (store s); failed_numbers := S (length (store s)) |},
    report, loop, dispatch.
  split.
  { rewrite T6, T5, T2, Htr1. by rewrite <- !app_assoc. }
  split; [done|]. split; [done|]. split; [done|]. split; [done|].
  split; [done|].
  unfold total. simpl. rewrite S2, Hst, content_fst, content_snd.
  split; [by apply picked_length|].
  split; [by apply picked_permutation|].
  by exists q.
Qed.

(** A run of [main] that returns 0, from the loading of the numbers on. *)
Lemma main_completed argv (s s' : state W) :
  main oracle clock argv s = (Ret 0%Z, s') ->
  let args := parse_args argv in
  exists message s1 numbers s2 arguments start now σ stats report loop dispatch,
    load_message oracle (message_file args) (configure_logging (log_level args) s).2
    = (Ret message, s1)
    /\ load_numbers oracle (workbook args) (sheet args) (column args) (limit args) s1
       = (Ret numbers, s2)
    /\ trace_by quiet s s2
    /\ trace s'
       = trace s2
         ++ [Logged INFO "Total de números únicos a enviar: %s"
               [Py.str_of_nat (length numbers)];
             Called (Chrome arguments) None; Called MaximizeWindow None; Clock start]
         ++ loop
         ++ [Clock now; Logged INFO ("Resumo:" +:+ nl +:+ "%s") [report]]
         ++ dispatch
         ++ [Called (Print report) None; Called BrowserQuit None]
    /\ gets loop = map send_url numbers
    /\ forallb (typing message) loop = true
    /\ gets dispatch = map send_url (valid_recipients (report_numbers args))
    /\ forallb (typing report) dispatch = true
    /\ build_report σ stats (now - start) = Ret report
    /\ total σ stats = length numbers
    /\ content σ (successful_numbers stats) ++ content σ (failed_numbers stats)
       ≡ₚ numbers
    /\ exists q, sleep_result (delay args) = Ret q.
Proof.
  intros Hrun. unfold main in Hrun. cbv zeta in *.
  set (args := parse_args argv) in *.
  apply bind_inv in Hrun as [([] & s0 & H0 & Hrun)|(e & _ & ?)]; [|done].
  apply bind_inv in Hrun as [(message & s1 & H1 & Hrun)|(e & _ & ?)]; [|done].
  apply bind_inv in Hrun as [(numbers & s2 & H2 & Hrun)|(e & _ & ?)]; [|done].
  destruct numbers as [|number rest]; [by injection Hrun|].
  apply bind_inv in Hrun as [([] & s3 & H3 & Hrun)|(e & _ & ?)]; [|done].
  injection H3 as <-.
  apply bind_inv in Hrun as [([b wait] & s4 & H4 & Hrun)|(e & _ & ?)]; [|done].
  apply build_browser_run in H4 as [(bw & arguments & Hbw & T4)|(e' & He & _)];
    [|done].
  simpl in T4.
  apply bind_inv in Hrun as [(start & s5 & H5 & Hrun)|(e & _ & ?)]; [|done].
  assert (T5 : trace s5 = trace s4 ++ [Clock start]).
  { unfold time_time in H5. destruct (clock (world s4)). by simplify_eq. }
  set (body := session oracle clock args b wait (number :: rest) message start).
  change (((try_finally body (external oracle BrowserQuit)) ≫= fun _ => mret 0%Z) s5
          = (Ret 0%Z, s')) in Hrun.
  destruct (body s5) as [rb s6] eqn:Hbody.
  unfold mbind, M_bind, mret, M_ret, try_finally, external in Hrun.
  rewrite Hbody in Hrun.
  destruct (oracle BrowserQuit (world s6)) as [[[]|eq] w7]; [|done].
  destruct rb as [[]|eb]; [|done]. simplify_eq.
  apply session_completed in Hbody
    as (now & σ & stats & report & loop & dispatch & T6 & Hrest).
  exists message, s1, (number :: rest), s2, arguments, start, now, σ, stats, report,
    loop, dispatch.
  assert (Tpre : trace_by quiet s s2).
  { pose proof (configure_logging_quiet (log_level args) s) as T0.
    pose proof (load_message_quiet oracle (message_file args) s0) as T1.
    pose proof (load_numbers_quiet oracle (workbook args) (sheet args) (column args)
                  (limit args) s1) as T2.
    rewrite H0 in T0. rewrite H1 in T1. rewrite H2 in T2. simpl in T0, T1, T2.
    etransitivity; [exact T0|]. by etransitivity. }
  split; [by rewrite H0|]. split; [exact H2|]. split; [exact Tpre|].
  split; [|exact Hrest].
  simpl. rewrite T6, T5, T4. rewrite <- !app_assoc. simpl.
  reflexivity.
Qed.

End Completed.

(** X19. In a run of [main] that returns 0, the report printed is the text
    logged as the summary and the only text typed to the report recipients:
    after the summary is logged come the sends to the valid recipients, one
    [browser.get] each in the order given, then the printing of the same
    text, then [browser.quit()]. *)
Theorem main_prints_the_report_it_sent {W}
    (oracle : forall c : call, W -> result (answer c) * W) (clock : W -> Q * W)
    (argv : list arg) (s s' : state W) :
  main oracle clock argv s = (Ret 0%Z, s') ->
  exists report before dispatch,
    since s s'
    = before ++ [Logged INFO ("Resumo:" +:+ nl +:+ "%s") [report]]
      ++ dispatch ++ [Called (Print report) None; Called BrowserQuit None]
    /\ gets dispatch = map send_url (valid_recipients (report_numbers (parse_args argv)))
    /\ forallb (typing report) dispatch = true.
Proof.
  intros Hrun.
  destruct (main_completed oracle clock argv s s' Hrun)
    as (message & s1 & numbers & s2 & arguments & start & now & σ & stats & report
        & loop & dispatch & _ & _ & (pre & Tpre & _) & Htr & _ & _ & Hg & Hty & _).
  exists report,
    (pre ++ [Logged INFO "Total de números únicos a enviar: %s"
               [Py.str_of_nat (length numbers)];
             Called (Chrome arguments) None; Called MaximizeWindow None; Clock start]
     ++ loop ++ [Clock now]), dispatch.
  split; [|done].
  apply since_app. rewrite Htr, Tpre. rewrite <- !app_assoc. reflexivity.
Qed.

Lemma main_prints_the_report_it_sent_witness :
  let run := main (scripted "" [VStr "11999999999"] never) ticking
               [opt_report_number "sem numero"] initial in
  exists report before dispatch,
    since initial run.2
    = before ++ [Logged INFO ("Resumo:" +:+ nl +:+ "%s") [report]]
      ++ dispatch ++ [Called (Print report) None; Called BrowserQuit None]
    /\ gets dispatch
       = map send_url (valid_recipients
                         (report_numbers (parse_args [opt_report_number "sem numero"])))
    /\ forallb (typing report) dispatch = true.
Proof.
  apply (main_prints_the_report_it_sent (scripted "" [VStr "11999999999"] never)
           ticking [opt_report_number "sem numero"] initial).
  vm_compute. reflexivity.
Defined.

(** X20. In a run of [main] that returns 0, the report is built from
    statistics that account for every number [load_numbers] returned: the
    total is their count, and the successful and failed lists together hold
    exactly these numbers.  The elapsed time is taken between the two
    readings of the clock around the main loop, so the sends of the report
    are not counted in it. *)
Theorem main_report_counts_the_loaded_numbers {W}
    (oracle : forall c : call, W -> result (answer c) * W) (clock : W -> Q * W)
    (argv : list arg) (s s' : state W) :
  main oracle clock argv s = (Ret 0%Z, s') ->
  let args := parse_args argv in
  exists message s1 numbers s2 start now σ stats report loop before after,
    load_message oracle (message_file args) (configure_logging (log_level args) s).2
    = (Ret message, s1)
    /\ load_numbers oracle (workbook args) (sheet args) (column args) (limit args) s1
       = (Ret numbers, s2)
    /\ build_report σ stats (now - start) = Ret report
    /\ total σ stats = length numbers
    /\ content σ (successful_numbers stats) ++ content σ (failed_numbers stats)
       ≡ₚ numbers
    /\ since s s'
       = before ++ [Clock start] ++ loop
         ++ [Clock now; Logged INFO ("Resumo:" +:+ nl +:+ "%s") [report]] ++ after
    /\ gets loop = map send_url numbers.
Proof.
  intros Hrun args.
  destruct (main_completed oracle clock argv s s' Hrun)
    as (message & s1 & numbers & s2 & arguments & start & now & σ & stats & report
        & loop & dispatch & H1 & H2 & (pre & Tpre & _) & Htr & Hg & _ & _ & _
        & Hb & Ht & Hp & _).
  exists message, s1, numbers, s2, start, now, σ, stats, report, loop,
    (pre ++ [Logged INFO "Total de números únicos a enviar: %s"
               [Py.str_of_nat (length numbers)];
             Called (Chrome arguments) None; Called MaximizeWindow None]),
    (dispatch ++ [Called (Print report) None; Called BrowserQuit None]).
  split; [done|]. split; [done|]. split; [done|]. split; [done|]. split; [done|].
  split; [|done].
  apply since_app. rewrite Htr, Tpre. rewrite <- !app_assoc. reflexivity.
Qed.

Lemma main_report_counts_the_loaded_numbers_witness :
  let oracle := scripted "" [VStr "11111111111"; VStr "22222222222"]
                  (fun k => k =? 9) in
  let args := parse_args [] in
  let s' := (main oracle ticking [] initial).2 in
  exists message s1 numbers s2 start now σ stats report loop before after,
    load_message oracle (message_file args)
      (configure_logging (W := nat) (log_level args) initial).2 = (Ret message, s1)
    /\ load_numbers oracle (workbook args) (sheet args) (column args) (limit args) s1
       = (Ret numbers, s2)
    /\ build_report σ stats (now - start) = Ret report
    /\ total σ stats = length numbers
    /\ content σ (successful_numbers stats) ++ content σ (failed_numbers stats)
       ≡ₚ numbers
    /\ since initial s'
       = before ++ [Clock start] ++ loop
         ++ [Clock now; Logged INFO ("Resumo:" +:+ nl +:+ "%s") [report]] ++ after
    /\ gets loop = map send_url numbers.
Proof.
  apply (main_report_counts_the_loaded_numbers
           (scripted "" [VStr "11111111111"; VStr "22222222222"] (fun k => k =? 9))
           ticking [] initial).
  vm_compute. reflexivity.
Defined.

(** X21. In a run of [main] that returns 0, every text typed during the main
    loop is the message that [load_message] returned: the sends to the loaded
    numbers type nothing else. *)
Theorem main_types_the_loaded_message {W}
    (oracle : forall c : call, W -> result (answer c) * W) (clock : W -> Q * W)
    (argv : list arg) (s s' : state W) :
  main oracle clock argv s = (Ret 0%Z, s') ->
  let args := parse_args argv in
  exists message s1 now report before loop after,
    load_message oracle (message_file args) (configure_logging (log_level args) s).2
    = (Ret message, s1)
    /\ since s s'
       = before ++ loop
         ++ Clock now :: Logged INFO ("Resumo:" +:+ nl +:+ "%s") [report] :: after
    /\ typed before = []
    /\ forallb (typing message) loop = true
    /\ (forall text, text ∈ typed loop -> text = message).
Proof.
  intros Hrun args.
  destruct (main_completed oracle clock argv s s' Hrun)
    as (message & s1 & numbers & s2 & arguments & start & now & σ & stats & report
        & loop & dispatch & H1 & _ & (pre & Tpre & Ppre) & Htr & _ & Hty & _).
  exists message, s1, now, report,
    (pre ++ [Logged INFO "Total de números únicos a enviar: %s"
               [Py.str_of_nat (length numbers)];
             Called (Chrome arguments) None; Called MaximizeWindow None; Clock start]),
    loop,
    (dispatch ++ [Called (Print report) None; Called BrowserQuit None]).
  split; [done|]. split.
  { apply since_app. rewrite Htr, Tpre. rewrite <- !app_assoc. reflexivity. }
  split.
  { rewrite typed_app. simpl. rewrite app_nil_r.
    clear Tpre. induction pre as [|ev pre IH]; [done|].
    simpl in Ppre. apply andb_true_iff in Ppre as [Pev Ppre].
    destruct ev as [[] ?| | | |]; try done; simpl; by apply IH. }
  split; [exact Hty|].
  clear -Hty. induction loop as [|ev l IH]; simpl.
  - intros text Hin. by apply not_elem_of_nil in Hin.
  - simpl in Hty. apply andb_true_iff in Hty as [Pev Pl].
    destruct ev as [[] ?| | | |]; try (by apply IH); try done.
    intros t [->|Hin]%elem_of_cons; [|by apply IH].
    simpl in Pev. by apply bool_decide_eq_true in Pev.
Qed.

Lemma main_types_the_loaded_message_witness :
  let oracle := scripted "  Bom dia  " [VStr "11999999999"] never in
  let args := parse_args [opt_message_file "mensagem.txt"] in
  let s' := (main oracle ticking [opt_message_file "mensagem.txt"] initial).2 in
  exists message s1 now report before loop after,
    load_message oracle (message_file args)
      (configure_logging (W := nat) (log_level args) initial).2 = (Ret message, s1)
    /\ since initial s'
       = before ++ loop
         ++ Clock now :: Logged INFO ("Resumo:" +:+ nl +:+ "%s") [report] :: after
    /\ typed before = []
    /\ forallb (typing message) loop = true
    /\ (forall text, text ∈ typed loop -> text = message).
Proof.
  apply (main_types_the_loaded_message (scripted "  Bom dia  " [VStr "11999999999"] never)
           ticking [opt_message_file "mensagem.txt"] initial).
  vm_compute. reflexivity.
Defined.

(** ** The message of a run *)





